(** * tests/fixtures/sample.py: the record loader and the aggregator

    A shallow embedding of [read_data_file], [calculate_statistics],
    [filter_by_category] and [main], with the properties of the loader and of
    the aggregator proved over it.

    Conventions.
    - A Python [str] is a [string]; a character is a code point below 256.
    - A record ([Dict[str, str]]) is a [gmap string string]; a dataset is a
      list of records.
    - A Python [float] is an IEEE 754 binary64 value, a [spec_float] used with
      precision 53 and maximal exponent 1024.
    - [print], raised exceptions and [sys.exit] are threaded through the
      monad [M]: the lines written so far and either a value or the exception
      in flight. *)

From Stdlib Require Import ZArith Ascii String List Bool Lia.
From Stdlib Require Import Floats.SpecFloat.
From stdpp Require Import base option list gmap strings pretty.

Local Open Scope string_scope.
Local Open Scope list_scope.

(** ** Built-ins on strings *)

Module PyStr.

Definition code (c : ascii) : N := N_of_ascii c.

Definition comma : ascii := ascii_of_N 44.
Definition LF : ascii := ascii_of_N 10.
Definition CR : ascii := ascii_of_N 13.

(** [str.isspace] on one character (code points below 256). *)
Definition isspace (c : ascii) : bool :=
  match code c with
  | 9 | 10 | 11 | 12 | 13 | 28 | 29 | 30 | 31 | 32 | 133 | 160 => true
  | _ => false
  end%N.

Fixpoint lstrip (s : string) : string :=
  match s with
  | EmptyString => EmptyString
  | String c s' => if isspace c then lstrip s' else s
  end.

Fixpoint rstrip (s : string) : string :=
  match s with
  | EmptyString => EmptyString
  | String c s' =>
      match rstrip s' with
      | EmptyString => if isspace c then EmptyString else String c EmptyString
      | r => String c r
      end
  end.

(** [s.strip()] *)
Definition strip (s : string) : string := lstrip (rstrip s).

(** [s.split(sep)] for a one-character separator: never the empty list. *)
Fixpoint split (sep : ascii) (s : string) : list string :=
  match s with
  | EmptyString => [EmptyString]
  | String c s' =>
      if Ascii.eqb c sep then EmptyString :: split sep s'
      else match split sep s' with
           | [] => [String c EmptyString]
           | w :: ws => String c w :: ws
           end
  end.

(** Truth value of a string: [if s:] *)
Definition truthy (s : string) : bool :=
  match s with EmptyString => false | String _ _ => true end.

(** Text-mode reading with the default [newline=None]: a carriage return,
    alone or followed by a line feed, is read as one line feed. *)
Fixpoint universal_newlines (s : string) : string :=
  match s with
  | EmptyString => EmptyString
  | String c s' =>
      if Ascii.eqb c CR then
        String LF
          match s' with
          | String c' s'' =>
              if Ascii.eqb c' LF then universal_newlines s''
              else universal_newlines s'
          | EmptyString => EmptyString
          end
      else String c (universal_newlines s')
  end.

(** The lines of a text, each with its line feed (the last one may lack it). *)
Fixpoint keepends (s : string) : list string :=
  match s with
  | EmptyString => []
  | String c s' =>
      if Ascii.eqb c LF then String LF EmptyString :: keepends s'
      else match keepends s' with
           | [] => [String c EmptyString]
           | l :: ls => String c l :: ls
           end
  end.

(** [f.readlines()] on the stored text of a file opened with mode ['r']. *)
Definition readlines (text : string) : list string :=
  keepends (universal_newlines text).

End PyStr.

(** ** Records and datasets *)

Abbreviation Record := (gmap string string).
Abbreviation Dataset := (list (gmap string string)).

(** [dict(pairs)]: the pairs are inserted from left to right, so a later pair
    overrides an earlier one with the same key. *)
Definition dict (pairs : list (string * string)) : Record :=
  fold_left (fun d kv => <[kv.1 := kv.2]> d) pairs ∅.

(** ** Output, exceptions and exit *)

Inductive exn : Type :=
  | FileNotFoundError
  | OtherException (e : string)   (* any other subclass of [Exception] *)
  | SystemExit (code : Z).        (* not a subclass of [Exception] *)

Inductive outcome (A : Type) : Type :=
  | Return (a : A)
  | Raise (e : exn).
Arguments Return {A} a.
Arguments Raise {A} e.

(** A Python [float], see the conventions above. *)
Abbreviation float := spec_float.

(** One [print] call.  The two-decimal presentation of a float
    ([f"{x:.2f}"]) is kept symbolic. *)
Inductive line : Type :=
  | Text (s : string)
  | Fixed2 (label : string) (x : float).

Definition M (A : Type) : Type := list line * outcome A.

Definition ret {A} (a : A) : M A := ([], Return a).
Definition raise {A} (e : exn) : M A := ([], Raise e).
Definition print (l : line) : M unit := ([l], Return tt).

Definition bind {A B} (m : M A) (k : A -> M B) : M B :=
  match m with
  | (out, Return a) => let '(out', r) := k a in (out ++ out', r)
  | (out, Raise e) => (out, Raise e)
  end.

Notation "'let*' x ':=' m 'in' k" := (bind m (fun x => k))
  (at level 10, x name, m at level 100, k at level 200).
Notation "m '>>' k" := (bind m (fun _ => k))
  (at level 62, right associativity).

Definition stdout {A} (m : M A) : list line := m.1.
Definition result {A} (m : M A) : outcome A := m.2.

(** [try: body / except FileNotFoundError: h1 / except Exception as e: h2] *)
Definition try_except {A} (body : M A) (not_found : M A)
    (other : string -> M A) : M A :=
  match body with
  | (out, Return a) => (out, Return a)
  | (out, Raise FileNotFoundError) =>
      let '(out', r) := not_found in (out ++ out', r)
  | (out, Raise (OtherException e)) =>
      let '(out', r) := other e in (out ++ out', r)
  | (out, Raise (SystemExit c)) => (out, Raise (SystemExit c))
  end.

(** ** The file system seen by [open] *)

Inductive file : Type :=
  | Missing                      (* the path resolves to nothing *)
  | Unreadable (e : string)      (* opening or reading fails with message [e] *)
  | Readable (text : string).    (* the decoded content *)

Definition filesystem : Type := string -> file.

(** [with open(filepath, 'r') as f: lines = f.readlines()] *)
Definition open_readlines (fs : filesystem) (filepath : string)
    : M (list string) :=
  match fs filepath with
  | Missing => raise FileNotFoundError
  | Unreadable e => raise (OtherException e)
  | Readable text => ret (PyStr.readlines text)
  end.

(** ** The record loader *)

(** [[x.strip() for x in s.split(',')]] *)
Definition fields (s : string) : list string :=
  map PyStr.strip (PyStr.split PyStr.comma s).

(** One turn of the loop over [lines[1:]]. *)
Definition read_line (headers : list string) (records : Dataset)
    (line : string) : Dataset :=
  if PyStr.truthy (PyStr.strip line) then
    let values := fields line in
    let record := dict (zip headers values) in
    records ++ [record]
  else records.

(** The body of the [try] statement. *)
Definition read_data_file_body (fs : filesystem) (filepath : string)
    : M Dataset :=
  let* lines := open_readlines fs filepath in
  match lines with
  | [] => ret []
  | first :: rest =>
      let headers := fields first in
      ret (fold_left (read_line headers) rest [])
  end.

Definition read_data_file (fs : filesystem) (filepath : string) : M Dataset :=
  try_except (read_data_file_body fs filepath)
    (print (Text ("Error: File '" +:+ filepath +:+ "' not found")) >> ret [])
    (fun e => print (Text ("Error reading file: " +:+ e)) >> ret []).

(** ** Floating-point numbers *)

Module PyFloat.

Definition prec : Z := 53.
Definition emax : Z := 1024.

Definition zero : float := S754_zero false.          (* [0.0] *)
Definition add : float -> float -> float := SFadd prec emax.
Definition div : float -> float -> float := SFdiv prec emax.
Definition lt : float -> float -> bool := SFltb.     (* [x < y] *)
Definition le : float -> float -> bool := SFleb.     (* [x <= y] *)
Definition is_nan (x : float) : bool :=
  match x with S754_nan => true | _ => false end.

(** Conversion of a non-negative [int], here a length, to [float]. *)
Definition of_nat (n : nat) : float :=
  binary_normalize prec emax (Z.of_nat n) 0 false.

(** The correctly rounded value of [(-1)^neg * m * 10^e10]. *)
Definition of_decimal (neg : bool) (m : N) (e10 : Z) : float :=
  match m with
  | N0 => S754_zero neg
  | Npos p =>
      match e10 with
      | Z0 => binary_round prec emax neg p 0
      | Zpos k => binary_round prec emax neg (p * 10 ^ k) 0
      | Zneg k =>
          let '(q, e, l) :=
            SFdiv_core_binary prec emax (Zpos p) 0 (Zpos (10 ^ k)) 0 in
          binary_round_aux prec emax neg q e l
      end
  end.

(** *** [float(s)] for a string [s] *)

Import PyStr.

Definition is_digit (c : ascii) : bool :=
  ((48 <=? code c) && (code c <=? 57))%N.
Definition is_underscore (c : ascii) : bool := (code c =? 95)%N.

(** Characters above 127 are first replaced: white space by a blank, any
    other one (none is a decimal digit below 256) by a question mark. *)
Definition to_ascii (c : ascii) : ascii :=
  if (code c <? 128)%N then c
  else if isspace c then ascii_of_N 32 else ascii_of_N 63.

Fixpoint transform (s : string) : string :=
  match s with
  | EmptyString => EmptyString
  | String c s' => String (to_ascii c) (transform s')
  end.

(** Underscores are dropped; one is allowed only between two digits.
    [prev] is the character before [s]. *)
Fixpoint without_underscores (prev : ascii) (s : string) : option string :=
  match s with
  | EmptyString => if is_underscore prev then None else Some EmptyString
  | String c s' =>
      if is_underscore c then
        if is_digit prev then without_underscores c s' else None
      else if is_underscore prev && negb (is_digit c) then None
      else String c <$> without_underscores c s'
  end.

(** White space of the C locale. *)
Definition c_isspace (c : ascii) : bool :=
  match code c with
  | 9 | 10 | 11 | 12 | 13 | 32 => true
  | _ => false
  end%N.

Fixpoint skip_spaces (s : string) : string :=
  match s with
  | EmptyString => EmptyString
  | String c s' => if c_isspace c then skip_spaces s' else s
  end.

Definition tolower (c : ascii) : ascii :=
  if ((65 <=? code c) && (code c <=? 90))%N then ascii_of_N (code c + 32)
  else c.

(** [s] starts with [word] up to the case of letters: what follows it. *)
Fixpoint case_insensitive_match (word s : string) : option string :=
  match word, s with
  | EmptyString, _ => Some s
  | String w word', String c s' =>
      if Ascii.eqb (tolower c) w then case_insensitive_match word' s'
      else None
  | String _ _, EmptyString => None
  end.

(** An optional sign: whether it is a minus, and what follows. *)
Definition sign (s : string) : bool * string :=
  match s with
  | String c s' =>
      if (code c =? 45)%N then (true, s')
      else if (code c =? 43)%N then (false, s')
      else (false, s)
  | EmptyString => (false, s)
  end.

(** The leading decimal digits of [s], appended to the numeral [acc]:
    the numeral, how many digits were read, and what follows. *)
Fixpoint digits (s : string) (acc : N) (n : nat) : N * nat * string :=
  match s with
  | String c s' =>
      if is_digit c then digits s' (10 * acc + (code c - 48))%N (S n)
      else (acc, n, s)
  | EmptyString => (acc, n, s)
  end.

Definition parse_inf_or_nan (s : string) : option (float * string) :=
  let '(neg, s1) := sign s in
  match case_insensitive_match "inf" s1 with
  | Some s2 =>
      match case_insensitive_match "inity" s2 with
      | Some s3 => Some (S754_infinity neg, s3)
      | None => Some (S754_infinity neg, s2)
      end
  | None =>
      match case_insensitive_match "nan" s1 with
      | Some s2 => Some (S754_nan, s2)
      | None => None
      end
  end.

(** An exponent part [e[+-]ddd] at the head of [s], if complete. *)
Definition exponent (s : string) : option (Z * string) :=
  match s with
  | String c s1 =>
      if ((code c =? 101) || (code c =? 69))%N then
        let '(neg, s2) := sign s1 in
        let '(e, n, s3) := digits s2 0%N 0%nat in
        match n with
        | O => None
        | S _ => Some (if neg then (- Z.of_N e)%Z else Z.of_N e, s3)
        end
      else None
  | EmptyString => None
  end.

(** The longest prefix of [s] that is a decimal number, as a float, and what
    follows it; infinities and NaN when there is none. *)
Definition string_to_double (s : string) : option (float * string) :=
  let '(neg, s1) := sign s in
  let '(m1, n1, s2) := digits s1 0%N 0%nat in
  let '(m, n2, s3) :=
    match s2 with
    | String c s2' =>
        if (code c =? 46)%N then digits s2' m1 0%nat else (m1, 0%nat, s2)
    | EmptyString => (m1, 0%nat, s2)
    end in
  match (n1 + n2)%nat with
  | O => parse_inf_or_nan s
  | S _ =>
      match exponent s3 with
      | Some (e, s4) => Some (of_decimal neg m (e - Z.of_nat n2), s4)
      | None => Some (of_decimal neg m (- Z.of_nat n2), s3)
      end
  end.

Definition float_from_string_inner (s : string) : option float :=
  match string_to_double (skip_spaces s) with
  | Some (x, rest) =>
      match skip_spaces rest with
      | EmptyString => Some x
      | String _ _ => None
      end
  | None => None
  end.

(** [float(s)]: [None] stands for [ValueError]. *)
Definition from_string (s : string) : option float :=
  match without_underscores Ascii.zero (transform s) with
  | Some s' => float_from_string_inner s'
  | None => None
  end.

End PyFloat.

(** ** The aggregator *)

(** One turn of the loop over [data]. *)
Definition collect (numeric_field : string) (values : list float)
    (record : Record) : list float :=
  match record !! numeric_field with
  | Some s =>                             (* [numeric_field in record] *)
      match PyFloat.from_string s with
      | Some x => values ++ [x]
      | None => values                    (* [except ValueError: continue] *)
      end
  | None => values
  end.

(** [min(values)] and [max(values)] on [first :: rest]: the first item is
    kept until a later one compares strictly below (above) it. *)
Definition py_min (first : float) (rest : list float) : float :=
  fold_left (fun cur x => if PyFloat.lt x cur then x else cur) rest first.

Definition py_max (first : float) (rest : list float) : float :=
  fold_left (fun cur x => if PyFloat.lt cur x then x else cur) rest first.

(** [sum(values)]: the items are added from left to right, starting from
    zero, each addition rounded to the nearest float (the plain sum of the
    language reference; interpreters that compensate the rounding errors of
    the partial sums are not modelled). *)
Definition py_sum (values : list float) : float :=
  fold_left PyFloat.add values PyFloat.zero.

Definition calculate_statistics (data : Dataset) (numeric_field : string)
    : float * float * float :=
  let values := fold_left (collect numeric_field) data [] in
  match values with
  | [] => (PyFloat.zero, PyFloat.zero, PyFloat.zero)
  | first :: rest =>
      let min_val := py_min first rest in
      let max_val := py_max first rest in
      let avg_val :=
        PyFloat.div (py_sum values) (PyFloat.of_nat (length values)) in
      (min_val, max_val, avg_val)
  end.

(** [[x for x in l if cond(x)]] *)
Definition comprehension {A} (cond : A -> bool) (l : list A) : list A :=
  fold_left (fun acc x => if cond x then acc ++ [x] else acc) l [].

(** [record.get(category_field) == category_value]; [None] equals no string. *)
Definition category_is (category_field category_value : string)
    (record : Record) : bool :=
  match record !! category_field with
  | Some s => String.eqb s category_value
  | None => false
  end.

Definition filter_by_category (data : Dataset)
    (category_field category_value : string) : Dataset :=
  comprehension (category_is category_field category_value) data.

(** ** The entry point *)

Definition sys_exit {A} (code : Z) : M A := raise (SystemExit code).

(** [sorted(set(l))] for strings, ordered by code points. *)
Fixpoint insert_sorted (x : string) (l : list string) : list string :=
  match l with
  | [] => [x]
  | y :: l' =>
      if String.eqb x y then l
      else if String.ltb x y then x :: l
      else y :: insert_sorted x l'
  end.

Definition sorted_set (l : list string) : list string :=
  fold_right insert_sorted [] l.

(** [sep.join(l)] *)
Fixpoint join (sep : string) (l : list string) : string :=
  match l with
  | [] => ""
  | [x] => x
  | x :: l' => x +:+ sep +:+ join sep l'
  end.

Definition has_key (k : string) (record : Record) : bool :=
  bool_decide (is_Some (record !! k)).

Definition main (fs : filesystem) (argv : list string) : M unit :=
  match argv with
  | _ :: filepath :: _ =>
      let* data := read_data_file fs filepath in
      match data with
      | [] => print (Text "No data loaded") >> sys_exit 1
      | first :: _ =>
          print (Text ("Loaded " +:+ pretty (length data) +:+ " records")) >>
          (if has_key "amount" first then
             let '(min_amt, max_amt, avg_amt) :=
               calculate_statistics data "amount" in
             print (Text (String PyStr.LF "Amount Statistics:")) >>
             print (Fixed2 "  Min: " min_amt) >>
             print (Fixed2 "  Max: " max_amt) >>
             print (Fixed2 "  Avg: " avg_amt)
           else ret tt) >>
          (if has_key "category" first then
             let categories :=
               sorted_set (map (fun record => default "" (record !! "category")) data) in
             print (Text (String PyStr.LF "Categories found: "
                            +:+ join ", " categories))
           else ret tt)
      end
  | _ =>                                   (* [len(sys.argv) < 2] *)
      print (Text "Usage: python sample.py <datafile.csv>") >> sys_exit 1
  end.

(** The status the process ends with: that of [sys.exit], 1 for any other
    exception that reaches the top, 0 otherwise. *)
Definition exit_status {A} (m : M A) : Z :=
  match result m with
  | Return _ => 0
  | Raise (SystemExit code) => code
  | Raise _ => 1
  end.

(** * Notions used by the statements *)

(** A line is blank when nothing is left of it after trimming. *)
Definition nonblank (line : string) : Prop := PyStr.strip line ≠ "".

Global Instance nonblank_dec line : Decision (nonblank line) :=
  decide (PyStr.strip line ≠ "").

(** The record of one data row under the header tokens [headers]. *)
Definition row_record (headers : list string) (line : string) : Record :=
  dict (zip headers (fields line)).

(** The header of a file: the trimmed tokens of its first line. *)
Definition header (fs : filesystem) (filepath : string) : list string :=
  match fs filepath with
  | Readable text =>
      match PyStr.readlines text with
      | first :: _ => fields first
      | [] => []
      end
  | _ => []
  end.

(** The value of [field] as a float, for a record that has the field with a
    value that [float] accepts. *)
Definition coerce (field : string) (record : Record) : option float :=
  record !! field ≫= PyFloat.from_string.

(** The successfully coerced values of a dataset, in its order. *)
Definition coerced (data : Dataset) (field : string) : list float :=
  omap (coerce field) data.

(** The reading of "paired by position, cut to the shorter length" that
    names each header position: position [i] of the header gives the record
    the value at position [i] of the row when the row has one, and nothing
    when the row is shorter. *)
Definition paired_by_position (headers values : list string)
    (record : Record) : Prop :=
  (∀ i h, headers !! i = Some h -> i < length values ->
          record !! h = values !! i)
  ∧ (∀ i h, headers !! i = Some h -> length values <= i ->
            record !! h = None).

(** The ordering that C10 states for a triple (min, max, avg). *)
Definition mean_between_extremes (stats : float * float * float) : Prop :=
  let '(min_val, max_val, avg_val) := stats in
  PyFloat.le min_val avg_val = true
  ∧ PyFloat.le avg_val max_val = true
  ∧ PyFloat.le min_val max_val = true.

(** The reading of C7: the process ends with a non-zero status only when the
    path argument is missing or the file cannot be opened or read. *)
Definition nonzero_exit_only_for_access_problems (fs : filesystem)
    (argv : list string) : Prop :=
  exit_status (main fs argv) ≠ 0%Z ->
  length argv < 2
  ∨ ∃ filepath, argv !! 1 = Some filepath
                ∧ (fs filepath = Missing ∨ ∃ e, fs filepath = Unreadable e).

(** A small file system for the examples: a file with a blank row and a short
    row, a file whose header repeats a name, a header-only file, an empty
    file and an unreadable one; every other path is missing. *)
Definition nl : string := String PyStr.LF "".

Definition sample_fs : filesystem := fun filepath =>
  if String.eqb filepath "sales.csv" then
    Readable ("amount, category" +:+ nl +:+ "10,x" +:+ nl +:+ "   " +:+ nl
              +:+ "20,y,extra" +:+ nl +:+ "30" +:+ nl)
  else if String.eqb filepath "dup.csv" then
    Readable ("a,b,a" +:+ nl +:+ "1,2" +:+ nl)
  else if String.eqb filepath "header.csv" then
    Readable ("amount,category" +:+ nl)
  else if String.eqb filepath "empty.csv" then Readable ""
  else if String.eqb filepath "locked.csv" then Unreadable "Permission denied"
  else Missing.

(** * fibonacci.py *)

(** One turn of the loop: [prev, curr = curr, prev + curr]. *)
Definition fib_step (state : Z * Z) : Z * Z :=
  let '(prev, curr) := state in (curr, (prev + curr)%Z).

(** [fibonacci(n)] for an [int] of any size; [range(2, n + 1)] is
    [seqZ 2 (n + 1 - 2)]. *)
Definition fibonacci (n : Z) : Z :=
  if (n <=? 0)%Z then 0%Z
  else if (n =? 1)%Z then 1%Z
  else
    let '(prev, curr) :=
      fold_left (fun state _ => fib_step state) (seqZ 2 (n + 1 - 2)) (0%Z, 1%Z)
    in curr.

(** * tests/mcp-server/hello-mcp/server.py *)

(** The values that occur in [TEST_DATA]; a dictionary keeps its items in
    the order of insertion. *)
#[local] Set Warnings "-register-all".

Inductive pyvalue : Type :=
  | VStr (s : string)
  | VInt (z : Z)
  | VBool (b : bool)
  | VList (items : list pyvalue)
  | VDict (items : list (string * pyvalue)).

Definition TEST_DATA : list (string * pyvalue) :=
  [ ("sample",
     VDict [ ("type", VStr "sample");
             ("content", VStr "This is sample test data");
             ("id", VInt 1);
             ("active", VBool true) ]);
    ("config",
     VDict [ ("type", VStr "config");
             ("settings", VDict [ ("timeout", VInt 30);
                                  ("retries", VInt 3);
                                  ("verbose", VBool true) ]);
             ("version", VStr "1.0.0") ]);
    ("metadata",
     VDict [ ("type", VStr "metadata");
             ("description", VStr "Test metadata for validation");
             ("tags", VList [VStr "test"; VStr "mcp"; VStr "integration"]);
             ("timestamp", VStr "2024-01-01T00:00:00Z") ]) ].

(** [d[key]] and [key in d] for a dictionary given by its items. *)
Fixpoint getitem {A} (key : string) (d : list (string * A)) : option A :=
  match d with
  | [] => None
  | (k, v) :: d' => if String.eqb k key then Some v else getitem key d'
  end.

(** What a tool raises. *)
Inductive tool_exn : Type :=
  | KeyError (message : string)
  | Uncaught (e : string).       (* an exception no handler of the tool names *)

Definition get_test_data (key : string) : tool_exn + pyvalue :=
  match getitem key TEST_DATA with
  | None =>
      let available_keys := join ", " (map fst TEST_DATA) in
      inl (KeyError ("Key '" +:+ key +:+ "' not found. Available keys: "
                       +:+ available_keys))
  | Some entry => inr entry
  end.

(** [needle in hay] for strings. *)
Fixpoint contains (needle hay : string) : bool :=
  if String.prefix needle hay then true
  else match hay with
       | EmptyString => false
       | String _ hay' => contains needle hay'
       end.

(** How a call of [json.loads] or [compile] ends: it returns, it raises the
    exception that the [except] clause around it names, with [str(e)], or it
    raises another one. *)
Inductive call_outcome : Type :=
  | Succeeds
  | Fails (e : string)
  | Escapes (e : string).

(** The result dictionary, whose three keys never change. *)
Record validation : Type := Validation {
  valid : bool;
  format : string;
  details : string
}.

Definition markdown_indicators : list string := ["#"; "*"; "-"; "["; "]"; "`"].

Definition csharp_indicators : list string :=
  ["class "; "namespace "; "using "; "public "; "private "; "{"; "}"; ";"].

(** [validate_format(content, format_type)], over the library calls
    [json.loads] and [compile(_, '<string>', 'exec')]. *)
Definition validate_format (json_loads py_compile : string -> call_outcome)
    (content format_type : string) : tool_exn + validation :=
  let result := Validation false format_type "" in
  if String.eqb format_type "json" then
    match json_loads content with
    | Succeeds => inr (Validation true (format result) "Valid JSON structure")
    | Fails e =>
        inr (Validation (valid result) (format result) ("Invalid JSON: " +:+ e))
    | Escapes e => inl (Uncaught e)
    end
  else if String.eqb format_type "markdown" then
    let has_markdown :=
      existsb (fun indicator => contains indicator content)
        markdown_indicators in
    inr (Validation
           (has_markdown || (0 <? String.length (PyStr.strip content))%nat)
           (format result)
           (if has_markdown then "Contains markdown indicators"
            else "Plain text (valid as markdown)"))
  else if String.eqb format_type "python" then
    match py_compile content with
    | Succeeds => inr (Validation true (format result) "Valid Python syntax")
    | Fails e =>
        inr (Validation (valid result) (format result)
               ("Python syntax error: " +:+ e))
    | Escapes e => inl (Uncaught e)
    end
  else if String.eqb format_type "csharp" then
    let has_csharp :=
      existsb (fun indicator => contains indicator content)
        csharp_indicators in
    inr (Validation has_csharp (format result)
           (if has_csharp then "Contains C# code patterns"
            else "No C# patterns detected"))
  else
    inr (Validation (valid result) (format result)
           ("Unknown format type: " +:+ format_type
              +:+ ". Supported: markdown, python, json, csharp")).

(** * Notions used by the further statements *)

(** The Fibonacci numbers by their recurrence. *)
Fixpoint fib (n : nat) : Z :=
  match n with
  | O => 0%Z
  | S n' =>
      match n' with
      | O => 1%Z
      | S n'' => (fib n' + fib n'')%Z
      end
  end.

(** The character [c] occurs in [s]. *)
Fixpoint occurs (c : ascii) (s : string) : Prop :=
  match s with
  | EmptyString => False
  | String c' s' => c' = c ∨ occurs c s'
  end.

(** Strings in strictly increasing order of code points. *)
Fixpoint increasing (l : list string) : Prop :=
  match l with
  | [] => True
  | x :: l' =>
      match l' with
      | [] => True
      | y :: _ => String.ltb x y = true ∧ increasing l'
      end
  end.

(** * Properties *)

(** ** Loops as list functions *)

Section Loops.
Context {A B : Type}.

(** A loop that appends [g x] for the items that pass the test [c] builds
    the image of the filtered list. *)
Lemma fold_left_append (c : A -> bool) (P : A -> Prop)
    `{!∀ x, Decision (P x)} (g : A -> B) :
  (∀ x, c x = true <-> P x) ->
  ∀ l init,
    fold_left (fun acc x => if c x then acc ++ [g x] else acc) l init
    = init ++ (g <$> filter P l).
Proof.
  intros Hc l. induction l as [|x l IH]; intros init; simpl.
  - by rewrite app_nil_r.
  - rewrite IH. destruct (c x) eqn:Hx.
    + rewrite filter_cons_True by by apply Hc.
      by rewrite <- app_assoc.
    + rewrite filter_cons_False; [done|].
      intros HP. apply Hc in HP. congruence.
Qed.

End Loops.

Lemma comprehension_filter {A} (c : A -> bool) (P : A -> Prop)
    `{!∀ x, Decision (P x)} :
  (∀ x, c x = true <-> P x) ->
  ∀ l, comprehension c l = filter P l.
Proof.
  intros Hc l. unfold comprehension.
  rewrite (fold_left_append c P (fun x => x) Hc). simpl.
  by rewrite list_fmap_id.
Qed.

(** ** Trimming *)

Module StripFacts.
Import PyStr.

Lemma lstrip_idem s : lstrip (lstrip s) = lstrip s.
Proof.
  induction s as [|c s IH]; simpl; [done|].
  destruct (isspace c) eqn:Hc; [done|]. simpl. by rewrite Hc.
Qed.

Lemma rstrip_idem s : rstrip (rstrip s) = rstrip s.
Proof.
  induction s as [|c s IH]; simpl; [done|].
  destruct (rstrip s) as [|c' r] eqn:Hr.
  - destruct (isspace c) eqn:Hc; simpl; [done|]. by rewrite Hc.
  - simpl in *. by rewrite IH.
Qed.

Lemma rstrip_lstrip_fixed s : rstrip s = s -> rstrip (lstrip s) = lstrip s.
Proof.
  induction s as [|c s IH]; simpl; [done|].
  intros Hs. destruct (isspace c) eqn:Hc.
  - apply IH. revert Hs. destruct (rstrip s) as [|c' r].
    + discriminate.
    + by intros [= ->].
  - simpl. by rewrite Hc.
Qed.

(** A trimmed string is left as it is by a second trimming. *)
Lemma strip_idem s : strip (strip s) = strip s.
Proof.
  unfold strip.
  rewrite (rstrip_lstrip_fixed (rstrip s)) by apply rstrip_idem.
  apply lstrip_idem.
Qed.

Lemma truthy_nonempty s : truthy s = true <-> s ≠ "".
Proof. destruct s; simpl; split; (done || congruence). Qed.

End StripFacts.

(** ** The loader on a readable file *)

Lemma read_lines_spec headers rest init :
  fold_left (read_line headers) rest init
  = init ++ (row_record headers <$> filter nonblank rest).
Proof.
  apply (fold_left_append (fun l => PyStr.truthy (PyStr.strip l)) nonblank
           (row_record headers)).
  intros l. apply StripFacts.truthy_nonempty.
Qed.

Lemma read_data_file_readable fs filepath text :
  fs filepath = Readable text ->
  read_data_file fs filepath
  = ([], Return (row_record (fields (hd "" (PyStr.readlines text)))
                   <$> filter nonblank (tail (PyStr.readlines text)))).
Proof.
  intros Hfs. unfold read_data_file, read_data_file_body, open_readlines.
  rewrite Hfs. simpl.
  destruct (PyStr.readlines text) as [|first rest]; simpl; [done|].
  by rewrite read_lines_spec.
Qed.

Lemma read_data_file_missing fs filepath :
  fs filepath = Missing ->
  read_data_file fs filepath
  = ([Text ("Error: File '" +:+ filepath +:+ "' not found")], Return []).
Proof.
  intros Hfs. unfold read_data_file, read_data_file_body, open_readlines.
  by rewrite Hfs.
Qed.

Lemma read_data_file_unreadable fs filepath e :
  fs filepath = Unreadable e ->
  read_data_file fs filepath
  = ([Text ("Error reading file: " +:+ e)], Return []).
Proof.
  intros Hfs. unfold read_data_file, read_data_file_body, open_readlines.
  by rewrite Hfs.
Qed.

(** The loader always returns: what it prints and the dataset it yields. *)
Lemma read_data_file_returns fs filepath :
  ∃ out data, read_data_file fs filepath = (out, Return data).
Proof.
  destruct (fs filepath) as [|e|text] eqn:Hfs.
  - eexists _, _. by apply read_data_file_missing.
  - eexists _, _. by apply read_data_file_unreadable.
  - eexists _, _. by apply read_data_file_readable.
Qed.

(** ** Dictionaries built from pairs *)

Lemma dict_snoc pairs k x : dict (pairs ++ [(k, x)]) = <[k := x]> (dict pairs).
Proof. unfold dict. by rewrite fold_left_app. Qed.

(** A key maps to the value of the last pair that carries it. *)
Lemma dict_lookup_Some pairs k x :
  dict pairs !! k = Some x <->
  ∃ i, pairs !! i = Some (k, x) ∧
       ∀ j y, i < j -> pairs !! j ≠ Some (k, y).
Proof.
  induction pairs as [|[k' x'] pairs IH] using rev_ind.
  - split; [done|]. intros (i & Hi & _). by rewrite lookup_nil in Hi.
  - rewrite dict_snoc. destruct (decide (k' = k)) as [->|Hne].
    + rewrite lookup_insert_eq. split.
      * intros [= ->]. exists (length pairs). split.
        { by rewrite list_lookup_middle. }
        intros j y Hj. rewrite lookup_ge_None_2; [done|].
        rewrite length_app. simpl. lia.
      * intros (i & Hi & Hlast).
        destruct (decide (i < length pairs)) as [Hlt|Hge].
        { exfalso. apply (Hlast (length pairs) x'); [done|].
          by rewrite list_lookup_middle. }
        apply lookup_lt_Some in Hi as Hi'. rewrite length_app in Hi'.
        simpl in Hi'. assert (i = length pairs) as -> by lia.
        rewrite list_lookup_middle in Hi by done. congruence.
    + rewrite lookup_insert_ne by done. rewrite IH. split.
      * intros (i & Hi & Hlast). exists i. split.
        { by apply lookup_app_l_Some. }
        intros j y Hj Hjk.
        apply lookup_app_Some in Hjk as [Hjk|[_ Hjk]].
        { by apply (Hlast j y). }
        apply list_lookup_singleton_Some in Hjk as [_ ?]. congruence.
      * intros (i & Hi & Hlast).
        apply lookup_app_Some in Hi as [Hi|[_ Hi]].
        { exists i. split; [done|]. intros j y Hj Hjk.
          apply (Hlast j y Hj). by apply lookup_app_l_Some. }
        apply list_lookup_singleton_Some in Hi as [_ ?]. congruence.
Qed.

Lemma dict_lookup_is_Some pairs k :
  is_Some (dict pairs !! k) <-> ∃ i x, pairs !! i = Some (k, x).
Proof.
  induction pairs as [|[k' x'] pairs IH] using rev_ind.
  - split; [by intros [? ?]|]. intros (i & x & Hi). by rewrite lookup_nil in Hi.
  - rewrite dict_snoc. destruct (decide (k' = k)) as [->|Hne].
    + rewrite lookup_insert_eq. split; [|by eauto].
      intros _. exists (length pairs), x'. by rewrite list_lookup_middle.
    + rewrite lookup_insert_ne by done. rewrite IH. split.
      * intros (i & x & Hi). exists i, x. by apply lookup_app_l_Some.
      * intros (i & x & Hi).
        apply lookup_app_Some in Hi as [Hi|[_ Hi]]; [by eauto|].
        apply list_lookup_singleton_Some in Hi as [_ ?]. congruence.
Qed.

(** ** The order of floats *)

Section FloatOrder.

Local Ltac cases_compare :=
  repeat match goal with
  | |- context [(?a ?= ?b)%Z] => destruct (Z.compare_spec a b)
  | H : context [(?a ?= ?b)%Z] |- _ => destruct (Z.compare_spec a b)
  | |- context [(?a ?= ?b)%positive] => destruct (Pos.compare_spec a b)
  | H : context [(?a ?= ?b)%positive] |- _ =>
      destruct (Pos.compare_spec a b)
  end.

Local Ltac order_cases :=
  unfold PyFloat.lt, PyFloat.le, SFltb, SFleb, SFcompare;
  change (Pos.compare_cont Eq) with Pos.compare;
  simpl; intros; try congruence;
  cases_compare; simpl in *; subst; try congruence; try lia.

Lemma lt_irrefl (x : float) : PyFloat.lt x x = false.
Proof. destruct x as [[]|[]| |[] m e]; order_cases. Qed.

Lemma lt_trans (x y z : float) :
  PyFloat.lt x y = true -> PyFloat.lt y z = true -> PyFloat.lt x z = true.
Proof.
  destruct x as [[]|[]| |[] mx ex], y as [[]|[]| |[] my ey],
    z as [[]|[]| |[] mz ez]; order_cases.
Qed.

(** Two floats that are not NaN are comparable. *)
Lemma not_lt_le (x y : float) :
  PyFloat.is_nan x = false -> PyFloat.is_nan y = false ->
  PyFloat.lt y x = false -> PyFloat.le x y = true.
Proof.
  destruct x as [[]|[]| |[] mx ex], y as [[]|[]| |[] my ey]; order_cases.
Qed.

End FloatOrder.

(** ** Minimum and maximum *)

Lemma py_min_elem first rest : py_min first rest ∈ first :: rest.
Proof.
  revert first. induction rest as [|x rest IH]; intros first; simpl.
  - apply list_elem_of_here.
  - change (py_min (if PyFloat.lt x first then x else first) rest
            ∈ first :: x :: rest).
    specialize (IH (if PyFloat.lt x first then x else first)).
    destruct (PyFloat.lt x first);
      apply elem_of_cons in IH as [->|IH]; rewrite !elem_of_cons; auto.
Qed.

Lemma py_max_elem first rest : py_max first rest ∈ first :: rest.
Proof.
  revert first. induction rest as [|x rest IH]; intros first; simpl.
  - apply list_elem_of_here.
  - change (py_max (if PyFloat.lt first x then x else first) rest
            ∈ first :: x :: rest).
    specialize (IH (if PyFloat.lt first x then x else first)).
    destruct (PyFloat.lt first x);
      apply elem_of_cons in IH as [->|IH]; rewrite !elem_of_cons; auto.
Qed.

(** What is not below the current minimum is not below the final one. *)
Lemma py_min_keeps cur rest v :
  PyFloat.lt v cur = false -> PyFloat.lt v (py_min cur rest) = false.
Proof.
  revert cur. induction rest as [|x rest IH]; intros cur Hv; simpl; [done|].
  apply IH. destruct (PyFloat.lt x cur) eqn:Hx; [|done].
  destruct (PyFloat.lt v x) eqn:Hvx; [|done].
  rewrite (lt_trans v x cur Hvx Hx) in Hv. discriminate.
Qed.

Lemma py_max_keeps cur rest v :
  PyFloat.lt cur v = false -> PyFloat.lt (py_max cur rest) v = false.
Proof.
  revert cur. induction rest as [|x rest IH]; intros cur Hv; simpl; [done|].
  apply IH. destruct (PyFloat.lt cur x) eqn:Hx; [|done].
  destruct (PyFloat.lt x v) eqn:Hxv; [|done].
  rewrite (lt_trans cur x v Hx Hxv) in Hv. discriminate.
Qed.

(** No item is strictly below the minimum. *)
Lemma py_min_minimal first rest v :
  v ∈ first :: rest -> PyFloat.lt v (py_min first rest) = false.
Proof.
  revert first. induction rest as [|x rest IH]; intros first Hv.
  - apply list_elem_of_singleton in Hv as ->. apply lt_irrefl.
  - simpl. apply elem_of_cons in Hv as [->|Hv].
    + apply py_min_keeps. destruct (PyFloat.lt x first) eqn:Hx.
      * destruct (PyFloat.lt first x) eqn:Hfx; [|done].
        rewrite <- (lt_irrefl x). symmetry. exact (lt_trans x first x Hx Hfx).
      * apply lt_irrefl.
    + apply elem_of_cons in Hv as [->|Hv].
      * apply py_min_keeps. destruct (PyFloat.lt x first) eqn:Hx; [|done].
        apply lt_irrefl.
      * apply IH. by apply list_elem_of_further.
Qed.

(** No item is strictly above the maximum. *)
Lemma py_max_maximal first rest v :
  v ∈ first :: rest -> PyFloat.lt (py_max first rest) v = false.
Proof.
  revert first. induction rest as [|x rest IH]; intros first Hv.
  - apply list_elem_of_singleton in Hv as ->. apply lt_irrefl.
  - simpl. apply elem_of_cons in Hv as [->|Hv].
    + apply py_max_keeps. destruct (PyFloat.lt first x) eqn:Hx.
      * destruct (PyFloat.lt x first) eqn:Hxf; [|done].
        rewrite <- (lt_irrefl x). symmetry. exact (lt_trans x first x Hxf Hx).
      * apply lt_irrefl.
    + apply elem_of_cons in Hv as [->|Hv].
      * apply py_max_keeps. destruct (PyFloat.lt first x) eqn:Hx; [|done].
        apply lt_irrefl.
      * apply IH. by apply list_elem_of_further.
Qed.

(** ** The values the statistics are taken over *)

Lemma collect_spec field data init :
  fold_left (collect field) data init = init ++ coerced data field.
Proof.
  revert init. induction data as [|r data IH]; intros init; simpl.
  - by rewrite app_nil_r.
  - rewrite IH. unfold coerced. simpl. unfold collect, coerce at 2.
    destruct (r !! field) as [s|]; simpl; [|done].
    destruct (PyFloat.from_string s); simpl; [|done].
    by rewrite <- app_assoc.
Qed.

Lemma calculate_statistics_coerced data field :
  calculate_statistics data field =
  match coerced data field with
  | [] => (PyFloat.zero, PyFloat.zero, PyFloat.zero)
  | first :: rest =>
      (py_min first rest, py_max first rest,
       PyFloat.div (py_sum (first :: rest))
         (PyFloat.of_nat (length (first :: rest))))
  end.
Proof.
  unfold calculate_statistics. rewrite collect_spec. simpl.
  by destruct (coerced data field).
Qed.

Lemma category_is_spec field value (record : Record) :
  category_is field value record = true <-> record !! field = Some value.
Proof.
  unfold category_is. destruct (record !! field) as [s|]; [|done].
  rewrite String.eqb_eq. split; congruence.
Qed.

Lemma filter_by_category_filter (data : Dataset) field value :
  filter_by_category data field value
  = filter (fun record : Record => record !! field = Some value) data.
Proof. apply comprehension_filter. intros r. apply category_is_spec. Qed.

(** ** Claims about the loader *)

(** C2: on a readable file the loader yields one record per line after the
    first that is not blank once trimmed, in the order of the lines; blank
    lines yield nothing. *)
Theorem load_one_record_per_nonblank_line fs filepath text :
  fs filepath = Readable text ->
  ∃ data,
    result (read_data_file fs filepath) = Return data ∧
    length data = length (filter nonblank (tail (PyStr.readlines text))) ∧
    data = row_record (fields (hd "" (PyStr.readlines text)))
             <$> filter nonblank (tail (PyStr.readlines text)).
Proof.
  intros Hfs. rewrite (read_data_file_readable fs filepath text Hfs).
  eexists. split; [reflexivity|]. split; [|reflexivity].
  by rewrite length_fmap.
Qed.

Lemma load_one_record_per_nonblank_line_witness :
  ∃ data,
    result (read_data_file sample_fs "sales.csv") = Return data ∧
    length data = 3 ∧
    data = [ {["amount" := "10"; "category" := "x"]};
             {["amount" := "20"; "category" := "y"]};
             {["amount" := "30"]} ].
Proof.
  destruct (load_one_record_per_nonblank_line sample_fs "sales.csv" _ eq_refl)
    as (data & Hres & Hlen & Hdata).
  exists data. split; [exact Hres|]. split.
  - rewrite Hlen. vm_compute. reflexivity.
  - rewrite Hdata. vm_compute. reflexivity.
Defined.

(** C5: the loader never lets a failure through.  A missing path and any
    other failure of opening or reading are reported by one printed line and
    yield the empty dataset; an empty file yields the empty dataset and
    prints nothing; whatever the file system holds, the loader returns. *)
Theorem load_never_raises fs filepath :
  (fs filepath = Missing ->
     read_data_file fs filepath
     = ([Text ("Error: File '" +:+ filepath +:+ "' not found")], Return []))
  ∧ (∀ e, fs filepath = Unreadable e ->
       read_data_file fs filepath
       = ([Text ("Error reading file: " +:+ e)], Return []))
  ∧ (fs filepath = Readable "" ->
       read_data_file fs filepath = ([], Return []))
  ∧ (∃ out data, read_data_file fs filepath = (out, Return data)).
Proof.
  split; [apply read_data_file_missing|].
  split; [intros e; apply read_data_file_unreadable|].
  split; [|apply read_data_file_returns].
  intros Hfs. by rewrite (read_data_file_readable fs filepath "" Hfs).
Qed.

Lemma row_record_keys headers line k :
  is_Some (row_record headers line !! k) -> k ∈ headers.
Proof.
  unfold row_record. rewrite dict_lookup_is_Some.
  intros (i & x & Hi). apply lookup_zip_Some in Hi as [Hi _].
  by apply list_elem_of_lookup_2 in Hi.
Qed.

(** C8: every key of every loaded record is a token of the header, and so is
    every key of a record that the filter keeps. *)
Theorem loaded_keys_in_header fs filepath data record k :
  result (read_data_file fs filepath) = Return data ->
  (record ∈ data ∨
   ∃ field value, record ∈ filter_by_category data field value) ->
  is_Some (record !! k) ->
  k ∈ header fs filepath.
Proof.
  intros Hres Hrec Hk.
  assert (record ∈ data) as Hin.
  { destruct Hrec as [Hin|(field & value & Hin)]; [done|].
    rewrite filter_by_category_filter in Hin.
    by apply list_elem_of_filter in Hin as [_ Hin]. }
  clear Hrec. unfold header.
  destruct (fs filepath) as [|e|text] eqn:Hfs.
  - rewrite (read_data_file_missing _ _ Hfs) in Hres.
    injection Hres as <-. by apply elem_of_nil in Hin.
  - rewrite (read_data_file_unreadable _ _ _ Hfs) in Hres.
    injection Hres as <-. by apply elem_of_nil in Hin.
  - rewrite (read_data_file_readable _ _ _ Hfs) in Hres.
    injection Hres as <-.
    destruct (PyStr.readlines text) as [|first rest]; simpl in Hin.
    + by apply elem_of_nil in Hin.
    + apply list_elem_of_fmap in Hin as (line & -> & _).
      by apply row_record_keys in Hk.
Qed.

Lemma loaded_keys_in_header_witness :
  "category" ∈ header sample_fs "sales.csv".
Proof.
  apply (loaded_keys_in_header sample_fs "sales.csv"
           [ {["amount" := "10"; "category" := "x"]};
             {["amount" := "20"; "category" := "y"]};
             {["amount" := "30"]} ]
           {["amount" := "20"; "category" := "y"]} "category").
  - vm_compute. reflexivity.
  - left. apply list_elem_of_further, list_elem_of_here.
  - exists "y". vm_compute. reflexivity.
Defined.

(** C6, as stated, fails when a header name occurs twice: under the header
    [a,b,a] the row [1,2] gives a record that has the field [a], although
    the third header position lies beyond the row. *)
Lemma repeated_header_name_not_paired_by_position :
  read_data_file sample_fs "dup.csv"
  = ([], Return [ {["a" := "1"; "b" := "2"]} ])
  ∧ ¬ paired_by_position (fields ("a,b,a" +:+ nl)) (fields ("1,2" +:+ nl))
        {["a" := "1"; "b" := "2"]}.
Proof.
  split; [vm_compute; reflexivity|].
  intros [_ Hbeyond].
  specialize (Hbeyond 2 "a" eq_refl (le_n 2)).
  vm_compute in Hbeyond. discriminate.
Qed.

Lemma fields_trimmed s x : x ∈ fields s -> PyStr.strip x = x.
Proof.
  unfold fields. intros Hx.
  apply list_elem_of_fmap in Hx as (y & -> & _).
  apply StripFacts.strip_idem.
Qed.

(** C6, amended: the record of a non-blank row, built from the trimmed
    header tokens and the trimmed row values, has as keys the tokens at the
    positions below both lengths; a key maps to the row value at the last
    such position that carries it; with pairwise distinct header tokens,
    the token at position [i] maps to the row value at position [i] and is
    absent when the row has no such position. *)
Theorem row_record_pairs_by_position fs filepath text first rest line :
  fs filepath = Readable text ->
  PyStr.readlines text = first :: rest ->
  line ∈ rest ->
  nonblank line ->
  let headers := fields first in
  let values := fields line in
  let record := dict (zip headers values) in
  (∃ out data, read_data_file fs filepath = (out, Return data) ∧ record ∈ data)
  ∧ (∀ h, h ∈ headers -> PyStr.strip h = h)
  ∧ (∀ x, x ∈ values -> PyStr.strip x = x)
  ∧ (∀ k, is_Some (record !! k) <->
          ∃ i, i < length headers ∧ i < length values ∧ headers !! i = Some k)
  ∧ (∀ k x, record !! k = Some x <->
            ∃ i, headers !! i = Some k ∧ values !! i = Some x ∧
                 ∀ j, i < j -> headers !! j = Some k -> length values <= j)
  ∧ (NoDup headers ->
     ∀ i k, headers !! i = Some k -> record !! k = values !! i).
Proof.
  intros Hfs Hlines Hline Hnb headers values record.
  assert (∀ k x, record !! k = Some x <->
            ∃ i, headers !! i = Some k ∧ values !! i = Some x ∧
                 ∀ j, i < j -> headers !! j = Some k -> length values <= j)
    as Hlast.
  { intros k x. unfold record. rewrite dict_lookup_Some. split.
    - intros (i & Hi & Hlater). apply lookup_zip_Some in Hi as [Hh Hv].
      exists i. split; [done|]. split; [done|].
      intros j Hj Hjk.
      destruct (values !! j) as [y|] eqn:Hjv.
      + exfalso. apply (Hlater j y Hj). by apply lookup_zip_Some.
      + by apply lookup_ge_None.
    - intros (i & Hh & Hv & Hlater). exists i. split.
      + by apply lookup_zip_Some.
      + intros j y Hj Hjy. apply lookup_zip_Some in Hjy as [Hjh Hjv].
        apply lookup_lt_Some in Hjv. specialize (Hlater j Hj Hjh). lia. }
  split; [|split; [|split; [|split; [|split]]]].
  - rewrite (read_data_file_readable fs filepath text Hfs), Hlines.
    eexists _, _. split; [reflexivity|]. simpl.
    apply list_elem_of_fmap. exists line. split; [done|].
    by apply list_elem_of_filter.
  - intros h. apply fields_trimmed.
  - intros x. apply fields_trimmed.
  - intros k. unfold record. rewrite dict_lookup_is_Some. split.
    + intros (i & x & Hi). apply lookup_zip_Some in Hi as [Hh Hv].
      exists i. apply lookup_lt_Some in Hh as Hh'.
      apply lookup_lt_Some in Hv. done.
    + intros (i & _ & Hv & Hh).
      apply lookup_lt_is_Some_2 in Hv as [x Hv].
      exists i, x. by apply lookup_zip_Some.
  - exact Hlast.
  - intros Hnodup i k Hh.
    destruct (values !! i) as [x|] eqn:Hv.
    + apply Hlast. exists i. split; [done|]. split; [done|].
      intros j Hj Hjk. rewrite (NoDup_lookup _ _ _ _ Hnodup Hh Hjk) in Hj. lia.
    + destruct (record !! k) as [x|] eqn:Hr; [|done].
      apply Hlast in Hr as (i' & Hh' & Hv' & _).
      rewrite (NoDup_lookup _ _ _ _ Hnodup Hh Hh') in Hv. congruence.
Qed.

Lemma row_record_pairs_by_position_witness :
  dict (zip (fields ("amount, category" +:+ nl)) (fields ("30" +:+ nl)))
    !! "amount" = Some "30"
  ∧ dict (zip (fields ("amount, category" +:+ nl)) (fields ("30" +:+ nl)))
      !! "category" = None.
Proof.
  pose proof (row_record_pairs_by_position sample_fs "sales.csv" _
                ("amount, category" +:+ nl)
                ["10,x" +:+ nl; "   " +:+ nl; "20,y,extra" +:+ nl; "30" +:+ nl]
                ("30" +:+ nl) eq_refl eq_refl) as H.
  assert (("30" +:+ nl) ∈
            ["10,x" +:+ nl; "   " +:+ nl; "20,y,extra" +:+ nl; "30" +:+ nl])
    as Hin.
  { do 3 apply list_elem_of_further. apply list_elem_of_here. }
  assert (nonblank ("30" +:+ nl)) as Hnb.
  { vm_compute. discriminate. }
  destruct (H Hin Hnb) as (_ & _ & _ & _ & _ & Hdistinct).
  assert (NoDup (fields ("amount, category" +:+ nl))) as Hnodup.
  { vm_compute. repeat constructor; rewrite ?elem_of_cons, ?elem_of_nil;
      intros Hx; repeat destruct Hx as [Hx|Hx]; try discriminate; done. }
  split.
  - exact (Hdistinct Hnodup 0 "amount" eq_refl).
  - exact (Hdistinct Hnodup 1 "category" eq_refl).
Defined.

(** ** Claims about the aggregator *)

(** C1: the statistics are taken over the values of the records that have
    the field and whose value [float] accepts, in the order of the dataset;
    the other records are passed over.  The minimum and the maximum are
    among these values, with none strictly below the minimum and none
    strictly above the maximum, and the mean is their sum divided by their
    number.  Field values 10, abc and 20 give (10.0, 20.0, 15.0). *)
Theorem statistics_over_coerced_values (data : Dataset) (field : string) :
  match coerced data field with
  | [] =>
      calculate_statistics data field
      = (PyFloat.zero, PyFloat.zero, PyFloat.zero)
  | values =>
      ∃ min_val max_val,
        calculate_statistics data field
        = (min_val, max_val,
           PyFloat.div (py_sum values) (PyFloat.of_nat (length values)))
        ∧ min_val ∈ values ∧ max_val ∈ values
        ∧ ∀ v, v ∈ values ->
               PyFloat.lt v min_val = false ∧ PyFloat.lt max_val v = false
  end
  ∧ calculate_statistics
      [ {[field := "10"]}; {[field := "abc"]}; {[field := "20"]} ] field
    = (PyFloat.of_nat 10, PyFloat.of_nat 20, PyFloat.of_nat 15).
Proof.
  split.
  - rewrite calculate_statistics_coerced.
    destruct (coerced data field) as [|first rest]; [done|].
    exists (py_min first rest), (py_max first rest).
    split; [done|]. split; [apply py_min_elem|]. split; [apply py_max_elem|].
    intros v Hv. split; [by apply py_min_minimal|by apply py_max_maximal].
  - rewrite calculate_statistics_coerced. unfold coerced, coerce. simpl.
    rewrite !lookup_singleton_eq. vm_compute. reflexivity.
Qed.

Lemma coerced_nil (data : Dataset) field :
  (∀ r s, r ∈ data -> r !! field = Some s -> PyFloat.from_string s = None) ->
  coerced data field = [].
Proof.
  induction data as [|r data IH]; intros Hnone; [done|].
  unfold coerced in *. simpl. unfold coerce at 1.
  destruct (r !! field) as [s|] eqn:Hr; simpl.
  - rewrite (Hnone r s (list_elem_of_here _ _) Hr).
    apply IH. intros r' s' Hr'. apply Hnone. by apply list_elem_of_further.
  - apply IH. intros r' s' Hr'. apply Hnone. by apply list_elem_of_further.
Qed.

(** C4: when no record has the field with a value that [float] accepts, the
    statistics are three positive zeros. *)
Theorem statistics_of_no_values (data : Dataset) (field : string) :
  (∀ r s, r ∈ data -> r !! field = Some s -> PyFloat.from_string s = None) ->
  calculate_statistics data field = (PyFloat.zero, PyFloat.zero, PyFloat.zero).
Proof.
  intros Hnone. rewrite calculate_statistics_coerced.
  by rewrite (coerced_nil data field Hnone).
Qed.

Lemma statistics_of_no_values_witness :
  calculate_statistics [ {["amount" := "abc"]}; {["category" := "x"]} ] "amount"
  = (S754_zero false, S754_zero false, S754_zero false).
Proof.
  apply (statistics_of_no_values
           [ {["amount" := "abc"]}; {["category" := "x"]} ] "amount").
  intros r s Hr Hs.
  apply elem_of_cons in Hr as [->|Hr].
  - vm_compute in Hs. injection Hs as <-. vm_compute. reflexivity.
  - apply list_elem_of_singleton in Hr as ->. vm_compute in Hs. discriminate.
Defined.

(** C10, as stated, fails: for three records with the value 0.1, the sum
    rounds up and the mean is the float above 0.1, above the maximum. *)
Lemma mean_above_maximum :
  coerced [ {["amount" := "0.1"]}; {["amount" := "0.1"]};
            {["amount" := "0.1"]} ] "amount" ≠ []
  ∧ ¬ mean_between_extremes
        (calculate_statistics
           [ {["amount" := "0.1"]}; {["amount" := "0.1"]};
             {["amount" := "0.1"]} ] "amount").
Proof.
  split; [vm_compute; discriminate|].
  vm_compute. intros (_ & Habove & _). discriminate.
Qed.

(** C10, amended: with at least one coerced value, the minimum and the
    maximum are among the coerced values, none of which is strictly below
    the minimum or strictly above the maximum; when none of them is NaN,
    min <= v <= max for each of them and min <= max.  The mean is the
    rounded quotient of the rounded sum, and is not bounded by them. *)
Theorem extremes_bound_values (data : Dataset) (field : string) :
  coerced data field ≠ [] ->
  ∃ min_val max_val avg_val,
    calculate_statistics data field = (min_val, max_val, avg_val)
    ∧ min_val ∈ coerced data field
    ∧ max_val ∈ coerced data field
    ∧ (∀ v, v ∈ coerced data field ->
            PyFloat.lt v min_val = false ∧ PyFloat.lt max_val v = false)
    ∧ (Forall (fun v => PyFloat.is_nan v = false) (coerced data field) ->
       PyFloat.le min_val max_val = true
       ∧ ∀ v, v ∈ coerced data field ->
              PyFloat.le min_val v = true ∧ PyFloat.le v max_val = true)
    ∧ avg_val = PyFloat.div (py_sum (coerced data field))
                  (PyFloat.of_nat (length (coerced data field))).
Proof.
  intros Hne. rewrite calculate_statistics_coerced.
  destruct (coerced data field) as [|first rest]; [done|].
  eexists _, _, _. split; [reflexivity|].
  pose proof (py_min_elem first rest) as Hmin.
  pose proof (py_max_elem first rest) as Hmax.
  split; [done|]. split; [done|]. split.
  { intros v Hv. split; [by apply py_min_minimal|by apply py_max_maximal]. }
  split; [|done].
  intros Hnan. rewrite Forall_forall in Hnan.
  assert (∀ v, v ∈ first :: rest ->
            PyFloat.le (py_min first rest) v = true
            ∧ PyFloat.le v (py_max first rest) = true) as Hbounds.
  { intros v Hv. split.
    - apply not_lt_le; [by apply Hnan|by apply Hnan|by apply py_min_minimal].
    - apply not_lt_le; [by apply Hnan|by apply Hnan|by apply py_max_maximal]. }
  split; [|exact Hbounds]. by apply Hbounds.
Qed.

Lemma extremes_bound_values_witness :
  ∃ min_val max_val avg_val,
    calculate_statistics
      [ {["amount" := "20"]}; {["amount" := "abc"]}; {["amount" := "10"]} ]
      "amount" = (min_val, max_val, avg_val)
    ∧ min_val = PyFloat.of_nat 10 ∧ max_val = PyFloat.of_nat 20.
Proof.
  destruct (extremes_bound_values
              [ {["amount" := "20"]}; {["amount" := "abc"]};
                {["amount" := "10"]} ] "amount")
    as (min_val & max_val & avg_val & Hstats & _).
  - vm_compute. discriminate.
  - exists min_val, max_val, avg_val. split; [exact Hstats|].
    vm_compute in Hstats. injection Hstats as <- <- _.
    split; vm_compute; reflexivity.
Defined.

(** One step of a filter over a list of explicit records. *)
Local Ltac filter_step :=
  let Hd := fresh "Hd" in
  rewrite filter_cons; case_decide as Hd;
  rewrite ?lookup_singleton_eq, ?lookup_empty in Hd;
  [ try discriminate Hd | try (exfalso; apply Hd; reflexivity) ];
  clear Hd.

(** C3: the filter keeps, in the order of the dataset, exactly the records
    whose value at the field is the target string; a record without the
    field is never kept, not even for the empty target; when nothing
    matches the result is empty.  Letter case and surrounding blanks
    count. *)
Theorem filter_keeps_exact_matches (data : Dataset) (field value : string) :
  filter_by_category data field value
  = filter (fun record : Record => record !! field = Some value) data
  ∧ sublist (filter_by_category data field value) data
  ∧ (∀ record : Record,
       record ∈ filter_by_category data field value <->
       record ∈ data ∧ record !! field = Some value)
  ∧ (∀ record : Record,
       record !! field = None ->
       record ∉ filter_by_category data field value)
  ∧ ((∀ record : Record, record ∈ data -> record !! field ≠ Some value) ->
     filter_by_category data field value = [])
  ∧ filter_by_category
      [ {[field := "a"]}; {[field := "A"]}; ∅; {[field := " a"]};
        {[field := "a"]}; {[field := ""]} ] field "a"
    = [ {[field := "a"]}; {[field := "a"]} ]
  ∧ filter_by_category [ ∅; {[field := ""]} ] field "" = [ {[field := ""]} ].
Proof.
  rewrite !filter_by_category_filter.
  split; [done|]. split; [apply sublist_filter|].
  split; [intros r; rewrite list_elem_of_filter; tauto|].
  split.
  { intros r Hnone. rewrite list_elem_of_filter. intros [Hr _]. congruence. }
  split.
  { intros Hnone. induction data as [|r data IH]; [done|].
    rewrite filter_cons_False.
    - apply IH. intros r' Hr'. apply Hnone. by apply list_elem_of_further.
    - apply Hnone. apply list_elem_of_here. }
  split.
  - repeat filter_step. by rewrite filter_nil.
  - repeat filter_step. by rewrite filter_nil.
Qed.

(** C9: filtering the result of the filter again, by the same field and
    value, changes nothing. *)
Theorem filter_idempotent (data : Dataset) (field value : string) :
  filter_by_category (filter_by_category data field value) field value
  = filter_by_category data field value.
Proof.
  rewrite !filter_by_category_filter. rewrite list_filter_filter.
  apply list_filter_iff. intros r. tauto.
Qed.

(** ** Claims about the entry point *)

(** C7, as stated, fails: a readable file that holds only its header makes
    the process print "No data loaded", not a record count, and end with
    status 1. *)
Lemma header_only_file_exits_nonzero :
  sample_fs "header.csv" = Readable ("amount,category" +:+ nl)
  ∧ main sample_fs ["sample.py"; "header.csv"]
    = ([Text "No data loaded"], Raise (SystemExit 1))
  ∧ ¬ nonzero_exit_only_for_access_problems sample_fs
        ["sample.py"; "header.csv"].
Proof.
  split; [reflexivity|]. split; [vm_compute; reflexivity|].
  intros Hclaim. destruct Hclaim as [Hlen|(filepath & Harg & Hfile)].
  - vm_compute. discriminate.
  - simpl in Hlen. lia.
  - injection Harg as <-. destruct Hfile as [Hfile|[e Hfile]]; discriminate.
Qed.

Lemma main_without_argument fs argv :
  length argv < 2 ->
  main fs argv
  = ([Text "Usage: python sample.py <datafile.csv>"], Raise (SystemExit 1)).
Proof.
  destruct argv as [|prog [|filepath argv]]; simpl; intros Hlen;
    [done|done|lia].
Qed.

Lemma main_no_data fs prog filepath argv out :
  read_data_file fs filepath = (out, Return []) ->
  main fs (prog :: filepath :: argv)
  = (out ++ [Text "No data loaded"], Raise (SystemExit 1)).
Proof. intros Hread. unfold main. by rewrite Hread. Qed.

Lemma main_loaded fs prog filepath argv out first rest :
  read_data_file fs filepath = (out, Return (first :: rest)) ->
  ∃ more,
    main fs (prog :: filepath :: argv)
    = (out ++ Text ("Loaded " +:+ pretty (length (first :: rest))
                      +:+ " records") :: more,
       Return tt).
Proof.
  intros Hread. unfold main. rewrite Hread.
  unfold bind, print, ret.
  destruct (has_key "amount" first), (has_key "category" first);
    try destruct (calculate_statistics _ _) as [[min_amt max_amt] avg_amt];
    eexists; reflexivity.
Qed.

(** C7, amended: the process ends with a non-zero status exactly when the
    path argument is missing or the loader yields the empty dataset, be it
    for a missing or unreadable file or for a readable one without data
    rows; when the dataset is not empty it prints the record count and ends
    with status 0. *)
Theorem main_exit_status (fs : filesystem) (argv : list string) :
  (exit_status (main fs argv) ≠ 0%Z <->
   length argv < 2
   ∨ ∃ filepath, argv !! 1 = Some filepath
                 ∧ result (read_data_file fs filepath) = Return [])
  ∧ (∀ filepath data,
       argv !! 1 = Some filepath ->
       result (read_data_file fs filepath) = Return data ->
       data ≠ [] ->
       exit_status (main fs argv) = 0%Z
       ∧ Text ("Loaded " +:+ pretty (length data) +:+ " records")
           ∈ stdout (main fs argv)).
Proof.
  destruct (decide (length argv < 2)) as [Hshort|Hlong].
  { rewrite (main_without_argument fs argv Hshort). split.
    - split; [by left|]. intros _. unfold exit_status. simpl. lia.
    - intros filepath data Harg. apply lookup_lt_Some in Harg. lia. }
  destruct argv as [|prog [|filepath argv]]; simpl in Hlong; [lia|lia|].
  destruct (read_data_file_returns fs filepath) as (out & data & Hread).
  destruct data as [|first rest].
  - rewrite (main_no_data fs prog filepath argv out Hread). split.
    + split.
      * intros _. right. exists filepath. split; [done|]. by rewrite Hread.
      * intros _. unfold exit_status. simpl. lia.
    + intros filepath' data [= <-]. rewrite Hread. simpl.
      intros [= <-]. done.
  - destruct (main_loaded fs prog filepath argv out first rest Hread)
      as (more & ->).
    split.
    + split; [done|].
      intros [Hlen|(filepath' & [= <-] & Hres)]; [simpl in Hlen; lia|].
      rewrite Hread in Hres. discriminate.
    + intros filepath' data [= <-]. rewrite Hread. simpl. intros [= <-] _.
      split; [done|]. unfold stdout. simpl.
      apply elem_of_app. right. apply list_elem_of_here.
Qed.

(** * Further properties *)

(** ** fibonacci.py *)

Lemma fib_loop (k : nat) :
  fold_left (fun state _ => fib_step state) (seqZ 2 (Z.of_nat k)) (0%Z, 1%Z)
  = (fib k, fib (S k)).
Proof.
  induction k as [|k IH].
  - reflexivity.
  - rewrite seqZ_S, fold_left_app, IH. simpl. f_equal.
    destruct k; lia.
Qed.

(** The loop computes the Fibonacci number of its argument, and 0 for an
    argument below 0. *)
Theorem fibonacci_is_fib (n : Z) : fibonacci n = fib (Z.to_nat n).
Proof.
  unfold fibonacci.
  destruct (Z.leb_spec n 0) as [Hle|Hpos].
  - replace (Z.to_nat n) with 0%nat by lia. reflexivity.
  - destruct (Z.eqb_spec n 1) as [->|Hne]; [reflexivity|].
    replace (n + 1 - 2)%Z with (Z.of_nat (Z.to_nat n - 1)) by lia.
    rewrite fib_loop.
    replace (S (Z.to_nat n - 1)) with (Z.to_nat n) by lia. reflexivity.
Qed.

Lemma fib_nonneg (n : nat) : (0 <= fib n)%Z ∧ (0 <= fib (S n))%Z.
Proof.
  induction n as [|n [IH1 IH2]]; [simpl; lia|].
  split; [exact IH2|]. change (fib (S (S n))) with (fib (S n) + fib n)%Z. lia.
Qed.

Lemma fib_mono (m n : nat) : m <= n -> (fib m <= fib n)%Z.
Proof.
  induction 1 as [|n _ IH]; [lia|].
  destruct n as [|n]; [destruct m; simpl in *; lia|].
  change (fib (S (S n))) with (fib (S n) + fib n)%Z.
  pose proof (fib_nonneg n). lia.
Qed.

(** The result is never negative and never decreases when the argument
    grows. *)
Theorem fibonacci_monotone (m n : Z) :
  (m <= n)%Z -> (0 <= fibonacci m <= fibonacci n)%Z.
Proof.
  intros Hmn. rewrite !fibonacci_is_fib. split.
  - apply fib_nonneg.
  - apply fib_mono. lia.
Qed.

Lemma fibonacci_monotone_witness :
  (0 <= fibonacci 7 <= fibonacci 10)%Z.
Proof. apply (fibonacci_monotone 7 10). lia. Defined.

(** From the third number on, each one is the sum of the two before it. *)
Theorem fibonacci_recurrence (n : Z) :
  (0 <= n)%Z ->
  fibonacci (n + 2) = (fibonacci (n + 1) + fibonacci n)%Z.
Proof.
  intros Hn. rewrite !fibonacci_is_fib.
  replace (Z.to_nat (n + 2)) with (S (S (Z.to_nat n))) by lia.
  replace (Z.to_nat (n + 1)) with (S (Z.to_nat n)) by lia.
  reflexivity.
Qed.

Lemma fibonacci_recurrence_witness :
  fibonacci 10 = (fibonacci 9 + fibonacci 8)%Z.
Proof. apply (fibonacci_recurrence 8). lia. Defined.

(** ** Characters of a string *)

Lemma occurs_lstrip c s : occurs c (PyStr.lstrip s) -> occurs c s.
Proof.
  induction s as [|c' s IH]; simpl; [done|].
  destruct (PyStr.isspace c'); simpl; tauto.
Qed.

Lemma occurs_rstrip c s : occurs c (PyStr.rstrip s) -> occurs c s.
Proof.
  induction s as [|c' s IH]; simpl; [done|].
  destruct (PyStr.rstrip s) as [|c'' r]; simpl in *.
  - destruct (PyStr.isspace c'); simpl; tauto.
  - tauto.
Qed.

(** Trimming adds no character. *)
Lemma occurs_strip c s : occurs c (PyStr.strip s) -> occurs c s.
Proof. intros H. by apply occurs_rstrip, occurs_lstrip. Qed.

Lemma lstrip_keeps c s :
  PyStr.isspace c = false -> occurs c s -> occurs c (PyStr.lstrip s).
Proof.
  intros Hc. induction s as [|c' s IH]; simpl; [done|].
  intros [->|Hs].
  - rewrite Hc. by left.
  - destruct (PyStr.isspace c'); [by apply IH|]. by right.
Qed.

Lemma rstrip_keeps c s :
  PyStr.isspace c = false -> occurs c s -> occurs c (PyStr.rstrip s).
Proof.
  intros Hc. induction s as [|c' s IH]; simpl; [done|].
  intros [->|Hs].
  - destruct (PyStr.rstrip s); [rewrite Hc|]; by left.
  - specialize (IH Hs). destruct (PyStr.rstrip s); [done|]. by right.
Qed.

(** Trimming keeps every character that is not white space. *)
Lemma strip_keeps c s :
  PyStr.isspace c = false -> occurs c s -> occurs c (PyStr.strip s).
Proof. intros Hc Hs. by apply lstrip_keeps, rstrip_keeps. Qed.

Lemma prefix_occurs c needle hay :
  String.prefix needle hay = true -> occurs c needle -> occurs c hay.
Proof.
  revert hay. induction needle as [|a needle IH]; intros hay; [done|].
  destruct hay as [|b hay]; simpl; [done|].
  destruct (ascii_dec a b) as [->|]; [|done].
  intros Hp [->|Hc]; [by left|]. right. by apply IH.
Qed.

(** Every character of a substring is a character of the string. *)
Lemma contains_occurs c needle hay :
  contains needle hay = true -> occurs c needle -> occurs c hay.
Proof.
  induction hay as [|b hay IH].
  - destruct needle; simpl; [tauto|discriminate].
  - cbn [contains]. destruct (String.prefix needle (String b hay)) eqn:Hp.
    + intros _. by apply prefix_occurs.
    + intros Hc Hn. right. by apply IH.
Qed.

(** ** tests/mcp-server/hello-mcp/server.py *)

(** For each of the three keys of the table the tool returns the entry of
    that key, a dictionary whose [type] is the key; for any other key it
    raises [KeyError] with a message that names the key and lists the three
    keys in the order of the table. *)
Theorem get_test_data_by_key (key : string) :
  match get_test_data key with
  | inr entry =>
      key ∈ ["sample"; "config"; "metadata"]
      ∧ getitem key TEST_DATA = Some entry
      ∧ ∃ items, entry = VDict items ∧ getitem "type" items = Some (VStr key)
  | inl e =>
      (key ∉ ["sample"; "config"; "metadata"])
      ∧ e = KeyError ("Key '" +:+ key
                        +:+ "' not found. Available keys: sample, config, metadata")
  end.
Proof.
  unfold get_test_data, TEST_DATA. cbn [getitem].
  destruct (String.eqb_spec "sample" key) as [<-|Hs].
  { split; [apply list_elem_of_here|]. split; [done|]. by eexists. }
  destruct (String.eqb_spec "config" key) as [<-|Hc].
  { split; [apply list_elem_of_further, list_elem_of_here|].
    split; [done|]. by eexists. }
  destruct (String.eqb_spec "metadata" key) as [<-|Hm].
  { split; [do 2 apply list_elem_of_further; apply list_elem_of_here|].
    split; [done|]. by eexists. }
  split; [|reflexivity].
  rewrite !elem_of_cons, elem_of_nil. intros [|[|[|[]]]]; congruence.
Qed.

Lemma has_indicator_nonblank indicators content :
  (∀ indicator, indicator ∈ indicators ->
     ∃ c, PyStr.isspace c = false ∧ occurs c indicator) ->
  existsb (fun indicator => contains indicator content) indicators = true ->
  PyStr.strip content ≠ "".
Proof.
  intros Hind Hex. apply existsb_exists in Hex as (indicator & Hin & Hc).
  apply list_elem_of_In in Hin.
  destruct (Hind indicator Hin) as (c & Hspace & Hocc).
  pose proof (strip_keeps c content Hspace (contains_occurs _ _ _ Hc Hocc))
    as Hkept.
  intros Hempty. by rewrite Hempty in Hkept.
Qed.

Lemma markdown_indicators_visible indicator :
  indicator ∈ markdown_indicators ->
  ∃ c, PyStr.isspace c = false ∧ occurs c indicator.
Proof.
  unfold markdown_indicators. rewrite !elem_of_cons, elem_of_nil.
  intros [->|[->|[->|[->|[->|[->|[]]]]]]];
    eexists; (split; [|left; reflexivity]); reflexivity.
Qed.

Lemma csharp_indicators_visible indicator :
  indicator ∈ csharp_indicators ->
  ∃ c, PyStr.isspace c = false ∧ occurs c indicator.
Proof.
  unfold csharp_indicators. rewrite !elem_of_cons, elem_of_nil.
  intros [->|[->|[->|[->|[->|[->|[->|[->|[]]]]]]]]];
    eexists; (split; [|left; reflexivity]); reflexivity.
Qed.

Lemma length_positive_nonempty s : (0 <? String.length s)%nat = negb (String.eqb s "").
Proof. by destruct s. Qed.

(** Whatever the library calls do, a result carries the requested format
    type, and the tool raises only when [json.loads] (for [json]) or
    [compile] (for [python]) raises an exception that the tool does not
    handle, which is then the one that leaves the tool. *)
Theorem validate_format_result
    (json_loads py_compile : string -> call_outcome)
    (content format_type : string) :
  match validate_format json_loads py_compile content format_type with
  | inr result => format result = format_type
  | inl e =>
      ∃ x, e = Uncaught x
           ∧ (format_type = "json" ∧ json_loads content = Escapes x
              ∨ format_type = "python" ∧ py_compile content = Escapes x)
  end.
Proof.
  unfold validate_format.
  destruct (String.eqb_spec format_type "json") as [->|_].
  { destruct (json_loads content) as [|e|e]; simpl; [done|done|].
    exists e. split; [done|]. by left. }
  destruct (String.eqb_spec format_type "markdown") as [->|_]; [done|].
  destruct (String.eqb_spec format_type "python") as [->|_].
  { destruct (py_compile content) as [|e|e]; simpl; [done|done|].
    exists e. split; [done|]. by right. }
  destruct (String.eqb_spec format_type "csharp") as [->|_]; done.
Qed.

(** A format type other than the four supported names, spelled exactly, is
    reported as not valid, with details that name it. *)
Theorem validate_format_unknown_type
    (json_loads py_compile : string -> call_outcome)
    (content format_type : string) :
  format_type ∉ ["markdown"; "python"; "json"; "csharp"] ->
  validate_format json_loads py_compile content format_type
  = inr (Validation false format_type
           ("Unknown format type: " +:+ format_type
              +:+ ". Supported: markdown, python, json, csharp")).
Proof.
  rewrite !elem_of_cons, elem_of_nil. intros Hnot. unfold validate_format.
  destruct (String.eqb_spec format_type "json"); [tauto|].
  destruct (String.eqb_spec format_type "markdown"); [tauto|].
  destruct (String.eqb_spec format_type "python"); [tauto|].
  destruct (String.eqb_spec format_type "csharp"); [tauto|].
  reflexivity.
Qed.

Lemma validate_format_unknown_type_witness :
  validate_format (fun _ => Succeeds) (fun _ => Succeeds) "{}" "JSON"
  = inr (Validation false "JSON"
           "Unknown format type: JSON. Supported: markdown, python, json, csharp").
Proof.
  apply (validate_format_unknown_type (fun _ => Succeeds) (fun _ => Succeeds)
           "{}" "JSON").
  rewrite !elem_of_cons, elem_of_nil. intros [|[|[|[|[]]]]]; discriminate.
Defined.

Lemma validate_markdown (json_loads py_compile : string -> call_outcome)
    (content : string) :
  validate_format json_loads py_compile content "markdown"
  = inr (Validation (negb (String.eqb (PyStr.strip content) "")) "markdown"
           (if existsb (fun indicator => contains indicator content)
                 markdown_indicators
            then "Contains markdown indicators"
            else "Plain text (valid as markdown)")).
Proof.
  unfold validate_format.
  change (String.eqb "markdown" "json") with false.
  change (String.eqb "markdown" "markdown") with true.
  cbv iota. cbn [format]. rewrite length_positive_nonempty.
  destruct (existsb (fun indicator => contains indicator content)
              markdown_indicators) eqn:Hex; [|reflexivity].
  pose proof (has_indicator_nonblank markdown_indicators content
                markdown_indicators_visible Hex) as Hnb.
  apply String.eqb_neq in Hnb. by rewrite Hnb.
Qed.

(** As markdown, a content is valid exactly when something is left of it
    after trimming: the indicators decide the details only.  A blank content
    is not valid, with the details of plain text. *)
Theorem validate_markdown_nonblank
    (json_loads py_compile : string -> call_outcome) (content : string) :
  ∃ result,
    validate_format json_loads py_compile content "markdown" = inr result
    ∧ (valid result = true <-> PyStr.strip content ≠ "")
    ∧ (PyStr.strip content = "" ->
       result = Validation false "markdown" "Plain text (valid as markdown)").
Proof.
  rewrite validate_markdown. eexists. split; [reflexivity|]. cbn [valid].
  split.
  - rewrite negb_true_iff, String.eqb_neq. tauto.
  - intros Hempty.
    destruct (existsb (fun indicator => contains indicator content)
                markdown_indicators) eqn:Hex.
    + destruct (has_indicator_nonblank markdown_indicators content
                  markdown_indicators_visible Hex Hempty).
    + by rewrite Hempty.
Qed.

(** A content that is valid as C# is valid as markdown. *)
Theorem valid_csharp_valid_markdown
    (json_loads py_compile : string -> call_outcome)
    (content : string) (result : validation) :
  validate_format json_loads py_compile content "csharp" = inr result ->
  valid result = true ->
  ∃ result',
    validate_format json_loads py_compile content "markdown" = inr result'
    ∧ valid result' = true.
Proof.
  intros Hcs Hvalid. rewrite validate_markdown.
  eexists. split; [reflexivity|]. cbn [valid].
  rewrite negb_true_iff, String.eqb_neq.
  unfold validate_format in Hcs.
  change (String.eqb "csharp" "json") with false in Hcs.
  change (String.eqb "csharp" "markdown") with false in Hcs.
  change (String.eqb "csharp" "python") with false in Hcs.
  change (String.eqb "csharp" "csharp") with true in Hcs.
  cbv iota in Hcs. injection Hcs as <-. cbn [valid] in Hvalid.
  exact (has_indicator_nonblank csharp_indicators content
           csharp_indicators_visible Hvalid).
Qed.

Lemma valid_csharp_valid_markdown_witness :
  ∃ result',
    validate_format (fun _ => Succeeds) (fun _ => Succeeds)
      "public class Test { }" "markdown" = inr result'
    ∧ valid result' = true.
Proof.
  apply (valid_csharp_valid_markdown (fun _ => Succeeds) (fun _ => Succeeds)
           "public class Test { }"
           (Validation true "csharp" "Contains C# code patterns")).
  - vm_compute. reflexivity.
  - reflexivity.
Defined.

(** ** The loader, further *)

(** Each loaded record is the record of a non-blank line after the first,
    under the tokens of the first line. *)
Lemma loaded_record_inv fs filepath data (record : Record) :
  result (read_data_file fs filepath) = Return data ->
  record ∈ data ->
  ∃ text first rest line,
    fs filepath = Readable text
    ∧ PyStr.readlines text = first :: rest
    ∧ line ∈ rest ∧ nonblank line
    ∧ record = row_record (fields first) line.
Proof.
  intros Hres Hin. destruct (fs filepath) as [|e|text] eqn:Hfs.
  - rewrite (read_data_file_missing _ _ Hfs) in Hres.
    injection Hres as <-. by apply elem_of_nil in Hin.
  - rewrite (read_data_file_unreadable _ _ _ Hfs) in Hres.
    injection Hres as <-. by apply elem_of_nil in Hin.
  - rewrite (read_data_file_readable _ _ _ Hfs) in Hres.
    injection Hres as <-.
    destruct (PyStr.readlines text) as [|first rest] eqn:Hlines; simpl in Hin.
    + by apply elem_of_nil in Hin.
    + apply list_elem_of_fmap in Hin as (line & -> & Hline).
      apply list_elem_of_filter in Hline as [Hnb Hline].
      by exists text, first, rest, line.
Qed.

Lemma filter_nil_iff {A} (P : A -> Prop) `{!∀ x, Decision (P x)} (l : list A) :
  filter P l = [] <-> ∀ x, x ∈ l -> ¬ P x.
Proof.
  split.
  - intros Hnil x Hx HP. by apply (filter_nil_not_elem_of P l x).
  - intros Hnone. induction l as [|x l IH]; [done|].
    rewrite filter_cons_False by (apply Hnone, list_elem_of_here).
    apply IH. intros y Hy. apply Hnone. by apply list_elem_of_further.
Qed.

(** A readable file yields the empty dataset exactly when every line after
    the first is blank (in particular when there is none). *)
Theorem load_empty_iff_no_data_rows fs filepath text :
  fs filepath = Readable text ->
  result (read_data_file fs filepath) = Return [] <->
  ∀ line, line ∈ tail (PyStr.readlines text) -> PyStr.strip line = "".
Proof.
  intros Hfs. rewrite (read_data_file_readable fs filepath text Hfs). simpl.
  split.
  - intros [= Hnil]. apply fmap_nil_inv in Hnil.
    intros line Hline.
    destruct (decide (PyStr.strip line = "")) as [|Hnb]; [done|].
    by destruct (proj1 (filter_nil_iff nonblank _) Hnil line Hline).
  - intros Hblank. f_equal.
    rewrite (proj2 (filter_nil_iff nonblank _)); [done|].
    intros line Hline Hnb. by apply Hnb, Hblank.
Qed.

Lemma load_empty_iff_no_data_rows_witness :
  result (read_data_file sample_fs "header.csv") = Return [] <->
  ∀ line,
    line ∈ tail (PyStr.readlines ("amount,category" +:+ nl)) ->
    PyStr.strip line = "".
Proof.
  apply (load_empty_iff_no_data_rows sample_fs "header.csv"). reflexivity.
Defined.

Lemma split_nonempty sep s : PyStr.split sep s ≠ [].
Proof.
  destruct s as [|c s]; simpl; [done|].
  destruct (Ascii.eqb c sep); [done|]. by destruct (PyStr.split sep s).
Qed.

Lemma split_no_separator sep s x :
  x ∈ PyStr.split sep s -> ¬ occurs sep x.
Proof.
  revert x. induction s as [|c s IH]; intros x; simpl.
  - intros Hx. apply list_elem_of_singleton in Hx as ->. tauto.
  - destruct (Ascii.eqb_spec c sep) as [->|Hne].
    + intros Hx. apply elem_of_cons in Hx as [->|Hx]; [simpl; tauto|].
      by apply IH.
    + destruct (PyStr.split sep s) as [|w ws] eqn:Hsplit.
      * intros Hx. apply list_elem_of_singleton in Hx as ->. simpl. tauto.
      * intros Hx. apply elem_of_cons in Hx as [->|Hx].
        -- simpl. intros [Hc|Hw]; [done|].
           by apply (IH w (list_elem_of_here _ _)).
        -- apply IH. by apply list_elem_of_further.
Qed.

Lemma fields_no_comma s x : x ∈ fields s -> ¬ occurs PyStr.comma x.
Proof.
  unfold fields. intros Hx.
  apply list_elem_of_fmap in Hx as (y & -> & Hy).
  intros Hocc. apply occurs_strip in Hocc.
  by apply (split_no_separator PyStr.comma s y).
Qed.

(** In every loaded record, every field name and every value is trimmed and
    holds no comma. *)
Theorem loaded_fields_trimmed_without_comma fs filepath data
    (record : Record) k v :
  result (read_data_file fs filepath) = Return data ->
  record ∈ data ->
  record !! k = Some v ->
  PyStr.strip k = k ∧ PyStr.strip v = v
  ∧ ¬ occurs PyStr.comma k ∧ ¬ occurs PyStr.comma v.
Proof.
  intros Hres Hin Hkv.
  destruct (loaded_record_inv fs filepath data record Hres Hin)
    as (text & first & rest & line & _ & _ & _ & _ & ->).
  unfold row_record in Hkv. apply dict_lookup_Some in Hkv as (i & Hi & _).
  apply lookup_zip_Some in Hi as [Hk Hv].
  apply list_elem_of_lookup_2 in Hk. apply list_elem_of_lookup_2 in Hv.
  split; [by apply (fields_trimmed first)|].
  split; [by apply (fields_trimmed line)|].
  split; [by apply (fields_no_comma first)|by apply (fields_no_comma line)].
Qed.

Lemma loaded_fields_trimmed_without_comma_witness :
  PyStr.strip "category" = "category" ∧ PyStr.strip "y" = "y"
  ∧ ¬ occurs PyStr.comma "category" ∧ ¬ occurs PyStr.comma "y".
Proof.
  apply (loaded_fields_trimmed_without_comma sample_fs "sales.csv"
           [ {["amount" := "10"; "category" := "x"]};
             {["amount" := "20"; "category" := "y"]};
             {["amount" := "30"]} ]
           {["amount" := "20"; "category" := "y"]}).
  - vm_compute. reflexivity.
  - apply list_elem_of_further, list_elem_of_here.
  - vm_compute. reflexivity.
Defined.

(** Every loaded record has the first token of the header as a field: no
    loaded record is empty. *)
Theorem loaded_record_has_first_field fs filepath data (record : Record) :
  result (read_data_file fs filepath) = Return data ->
  record ∈ data ->
  is_Some (record !! hd "" (header fs filepath)) ∧ record ≠ ∅.
Proof.
  intros Hres Hin.
  destruct (loaded_record_inv fs filepath data record Hres Hin)
    as (text & first & rest & line & Hfs & Hlines & _ & _ & ->).
  assert (is_Some (row_record (fields first) line
                     !! hd "" (header fs filepath))) as Hsome.
  { unfold header. rewrite Hfs, Hlines. unfold row_record, fields.
    pose proof (split_nonempty PyStr.comma first) as Hh.
    pose proof (split_nonempty PyStr.comma line) as Hv.
    destruct (PyStr.split PyStr.comma first) as [|h hs]; [done|].
    destruct (PyStr.split PyStr.comma line) as [|x xs]; [done|].
    simpl. apply dict_lookup_is_Some. by exists 0, (PyStr.strip x). }
  split; [exact Hsome|].
  intros Hempty. rewrite Hempty, lookup_empty in Hsome. by destruct Hsome.
Qed.

Lemma loaded_record_has_first_field_witness :
  is_Some (({["amount" := "30"]} : Record) !! hd "" (header sample_fs "sales.csv"))
  ∧ ({["amount" := "30"]} : Record) ≠ ∅.
Proof.
  apply (loaded_record_has_first_field sample_fs "sales.csv"
           [ {["amount" := "10"; "category" := "x"]};
             {["amount" := "20"; "category" := "y"]};
             {["amount" := "30"]} ]).
  - vm_compute. reflexivity.
  - do 2 apply list_elem_of_further. apply list_elem_of_here.
Defined.

Lemma universal_newlines_no_CR_upto n s :
  String.length s <= n -> ¬ occurs PyStr.CR (PyStr.universal_newlines s).
Proof.
  revert s. induction n as [|n IH]; intros s Hlen.
  - destruct s; simpl in *; [tauto|lia].
  - destruct s as [|c s]; [simpl; tauto|]. simpl in Hlen.
    cbn [PyStr.universal_newlines].
    destruct (Ascii.eqb_spec c PyStr.CR) as [->|Hne].
    + assert (PyStr.LF ≠ PyStr.CR) as Hlf by (vm_compute; discriminate).
      destruct s as [|c' s].
      * cbn [occurs]. tauto.
      * destruct (Ascii.eqb c' PyStr.LF); cbn [occurs];
          (intros [Heq|Hocc]; [done|]).
        -- apply (IH s); [simpl in *; lia|done].
        -- apply (IH (String c' s)); [simpl in *; lia|done].
    + cbn [occurs]. intros [Heq|Hocc]; [done|]. apply (IH s); [lia|done].
Qed.

Lemma universal_newlines_fixed s :
  ¬ occurs PyStr.CR s -> PyStr.universal_newlines s = s.
Proof.
  induction s as [|c s IH]; [done|]. simpl. intros Hno.
  destruct (Ascii.eqb_spec c PyStr.CR) as [->|Hne]; [tauto|].
  f_equal. apply IH. tauto.
Qed.

(** The line-ending convention of the file does not matter: a file and the
    same file with each carriage return, alone or before a line feed, turned
    into one line feed, load alike. *)
Theorem load_any_line_ending fs fs' filepath text :
  fs filepath = Readable text ->
  fs' filepath = Readable (PyStr.universal_newlines text) ->
  read_data_file fs' filepath = read_data_file fs filepath.
Proof.
  intros Hfs Hfs'.
  rewrite (read_data_file_readable fs filepath text Hfs).
  rewrite (read_data_file_readable fs' filepath _ Hfs').
  unfold PyStr.readlines.
  rewrite (universal_newlines_fixed (PyStr.universal_newlines text)); [done|].
  by apply (universal_newlines_no_CR_upto (String.length text)).
Qed.

Lemma load_any_line_ending_witness :
  read_data_file
    (fun _ => Readable ("a,b" +:+ nl +:+ "1,2" +:+ nl)) "dos.csv"
  = read_data_file
      (fun _ => Readable ("a,b" +:+ String PyStr.CR nl +:+ "1,2"
                            +:+ String PyStr.CR "")) "dos.csv".
Proof.
  apply (load_any_line_ending
           (fun _ => Readable ("a,b" +:+ String PyStr.CR nl +:+ "1,2"
                                 +:+ String PyStr.CR ""))
           (fun _ => Readable ("a,b" +:+ nl +:+ "1,2" +:+ nl)) "dos.csv"
           ("a,b" +:+ String PyStr.CR nl +:+ "1,2" +:+ String PyStr.CR ""));
    reflexivity.
Defined.

(** ** The aggregator, further *)

Lemma coerced_filter (P : Record -> Prop) `{!∀ r, Decision (P r)}
    (data : Dataset) field :
  (∀ r, is_Some (coerce field r) -> P r) ->
  coerced (filter P data) field = coerced data field.
Proof.
  intros HP. unfold coerced. induction data as [|r data IH]; [done|].
  rewrite filter_cons. destruct (decide (P r)) as [Hr|Hr].
  - change (omap (coerce field) (r :: filter P data)) with
      (match coerce field r with
       | Some v => v :: omap (coerce field) (filter P data)
       | None => omap (coerce field) (filter P data)
       end).
    by rewrite IH.
  - rewrite IH.
    change (omap (coerce field) (r :: data)) with
      (match coerce field r with
       | Some v => v :: omap (coerce field) data
       | None => omap (coerce field) data
       end).
    destruct (coerce field r) eqn:Hc; [|done].
    destruct Hr. apply HP. by rewrite Hc.
Qed.

(** The statistics do not change when the records that lack the field, or
    whose value [float] rejects, are removed from the dataset. *)
Theorem statistics_ignore_other_records (data : Dataset) (field : string) :
  calculate_statistics
    (filter (fun r : Record => is_Some (coerce field r)) data) field
  = calculate_statistics data field.
Proof.
  rewrite !calculate_statistics_coerced. by rewrite coerced_filter.
Qed.

Lemma coerced_filter_subset (P : Record -> Prop) `{!∀ r, Decision (P r)}
    (data : Dataset) field v :
  v ∈ coerced (filter P data) field -> v ∈ coerced data field.
Proof.
  unfold coerced. rewrite !list_elem_of_omap.
  intros (r & Hr & Hv). apply list_elem_of_filter in Hr as [_ Hr]. eauto.
Qed.

(** The statistics of a category lie within those of the whole dataset: the
    minimum over the filtered records is not below the minimum over all,
    and their maximum is not above the maximum over all. *)
Theorem statistics_of_category_within (data : Dataset)
    (category_field category_value field : string) :
  coerced (filter_by_category data category_field category_value) field ≠ [] ->
  ∃ min_all max_all avg_all min_cat max_cat avg_cat,
    calculate_statistics data field = (min_all, max_all, avg_all)
    ∧ calculate_statistics
        (filter_by_category data category_field category_value) field
      = (min_cat, max_cat, avg_cat)
    ∧ min_cat ∈ coerced data field ∧ max_cat ∈ coerced data field
    ∧ PyFloat.lt min_cat min_all = false
    ∧ PyFloat.lt max_all max_cat = false.
Proof.
  rewrite filter_by_category_filter. intros Hne.
  rewrite !calculate_statistics_coerced.
  pose proof (coerced_filter_subset
                (fun r : Record => r !! category_field = Some category_value)
                data field) as Hsub.
  destruct (coerced (filter _ data) field) as [|first' rest']; [done|].
  pose proof (Hsub _ (py_min_elem first' rest')) as Hmin.
  pose proof (Hsub _ (py_max_elem first' rest')) as Hmax.
  destruct (coerced data field) as [|first rest].
  { by apply elem_of_nil in Hmin. }
  eexists _, _, _, _, _, _. split; [reflexivity|]. split; [reflexivity|].
  split; [done|]. split; [done|].
  split; [by apply py_min_minimal|by apply py_max_maximal].
Qed.

Lemma statistics_of_category_within_witness :
  ∃ min_all max_all avg_all min_cat max_cat avg_cat,
    calculate_statistics
      [ {["amount" := "10"; "category" := "x"]};
        {["amount" := "20"; "category" := "y"]} ] "amount"
    = (min_all, max_all, avg_all)
    ∧ calculate_statistics
        (filter_by_category
           [ {["amount" := "10"; "category" := "x"]};
             {["amount" := "20"; "category" := "y"]} ] "category" "y")
        "amount"
      = (min_cat, max_cat, avg_cat)
    ∧ PyFloat.lt min_cat min_all = false
    ∧ PyFloat.lt max_all max_cat = false.
Proof.
  destruct (statistics_of_category_within
              [ {["amount" := "10"; "category" := "x"]};
                {["amount" := "20"; "category" := "y"]} ]
              "category" "y" "amount")
    as (a & b & c & d & e & f & H1 & H2 & _ & _ & H3 & H4).
  - vm_compute. discriminate.
  - by exists a, b, c, d, e, f.
Defined.

(** Two filters may be applied in either order. *)
Theorem filters_commute (data : Dataset) (f1 v1 f2 v2 : string) :
  filter_by_category (filter_by_category data f1 v1) f2 v2
  = filter_by_category (filter_by_category data f2 v2) f1 v1.
Proof.
  rewrite !filter_by_category_filter, !list_filter_filter.
  apply list_filter_iff. intros r. tauto.
Qed.

(** Filtering on two different values of the same field leaves nothing. *)
Theorem filters_on_different_values_empty (data : Dataset)
    (field v1 v2 : string) :
  v1 ≠ v2 ->
  filter_by_category (filter_by_category data field v1) field v2 = [].
Proof.
  intros Hne. rewrite !filter_by_category_filter, list_filter_filter.
  apply filter_nil_iff. intros r _ [H2 H1]. congruence.
Qed.

Lemma filters_on_different_values_empty_witness :
  filter_by_category
    (filter_by_category
       [ {["category" := "x"]}; {["category" := "y"]} ] "category" "x")
    "category" "y" = [].
Proof.
  apply (filters_on_different_values_empty
           [ {["category" := "x"]}; {["category" := "y"]} ] "category" "x" "y").
  discriminate.
Defined.

(** The records of a dataset split between those a filter keeps and the
    others: the filter never adds a record. *)
Theorem filter_keeps_a_part (data : Dataset) (field value : string) :
  length (filter_by_category data field value)
  + length (filter (fun r : Record => r !! field ≠ Some value) data)
  = length data.
Proof.
  rewrite filter_by_category_filter.
  induction data as [|r data IH]; [done|].
  rewrite !filter_cons.
  destruct (decide (r !! field = Some value));
    destruct (decide (r !! field ≠ Some value)); simpl; try tauto; lia.
Qed.

(** ** The entry point, further *)

(** For a path that cannot be opened or read, the process prints the
    diagnostic of the loader, then "No data loaded", and exits with
    status 1. *)
Theorem main_on_inaccessible_file fs prog filepath more :
  match fs filepath with
  | Missing =>
      main fs (prog :: filepath :: more)
      = ([Text ("Error: File '" +:+ filepath +:+ "' not found");
          Text "No data loaded"], Raise (SystemExit 1))
  | Unreadable e =>
      main fs (prog :: filepath :: more)
      = ([Text ("Error reading file: " +:+ e); Text "No data loaded"],
         Raise (SystemExit 1))
  | Readable _ => stdout (read_data_file fs filepath) = []
  end.
Proof.
  destruct (fs filepath) as [|e|text] eqn:Hfs.
  - by rewrite (main_no_data fs prog filepath more _
                  (read_data_file_missing fs filepath Hfs)).
  - by rewrite (main_no_data fs prog filepath more _
                  (read_data_file_unreadable fs filepath e Hfs)).
  - by rewrite (read_data_file_readable fs filepath text Hfs).
Qed.

(** The process always prints something, and it ends either normally or by
    [sys.exit(1)]: no other exception leaves [main], and no other status is
    possible than 0 and 1. *)
Theorem main_ends_normally_or_exits_1 fs argv :
  stdout (main fs argv) ≠ []
  ∧ (result (main fs argv) = Return tt ∧ exit_status (main fs argv) = 0%Z
     ∨ result (main fs argv) = Raise (SystemExit 1)
       ∧ exit_status (main fs argv) = 1%Z).
Proof.
  destruct (decide (length argv < 2)) as [Hshort|Hlong].
  { rewrite (main_without_argument fs argv Hshort). split; [done|].
    right. done. }
  destruct argv as [|prog [|filepath argv]]; simpl in Hlong; [lia|lia|].
  destruct (read_data_file_returns fs filepath) as (out & data & Hread).
  destruct data as [|first rest].
  - rewrite (main_no_data fs prog filepath argv out Hread). split.
    + unfold stdout. simpl. by destruct out.
    + right. done.
  - destruct (main_loaded fs prog filepath argv out first rest Hread)
      as (more & ->).
    split; [|left; done]. unfold stdout. simpl. by destruct out.
Qed.

Lemma string_compare_refl x : String.compare x x = Eq.
Proof.
  induction x as [|c x IH]; simpl; [done|].
  unfold Ascii.compare. by rewrite N.compare_refl.
Qed.

Lemma string_compare_lt_trans x y z :
  String.compare x y = Lt -> String.compare y z = Lt ->
  String.compare x z = Lt.
Proof.
  revert y z. induction x as [|a x IH]; intros [|b y] [|c z]; simpl;
    try done.
  unfold Ascii.compare.
  destruct (N.compare_spec (N_of_ascii a) (N_of_ascii b)) as [Hab|Hab|Hab];
    destruct (N.compare_spec (N_of_ascii b) (N_of_ascii c)) as [Hbc|Hbc|Hbc];
    destruct (N.compare_spec (N_of_ascii a) (N_of_ascii c)) as [Hac|Hac|Hac];
    try done; try lia.
  apply IH.
Qed.

Lemma string_ltb_irrefl x : String.ltb x x = false.
Proof. unfold String.ltb. by rewrite string_compare_refl. Qed.

Lemma string_ltb_trans x y z :
  String.ltb x y = true -> String.ltb y z = true -> String.ltb x z = true.
Proof.
  unfold String.ltb. intros Hxy Hyz.
  destruct (String.compare x y) eqn:H1; try done.
  destruct (String.compare y z) eqn:H2; try done.
  by rewrite (string_compare_lt_trans x y z H1 H2).
Qed.

Lemma string_ltb_total x y :
  String.eqb x y = false -> String.ltb x y = false -> String.ltb y x = true.
Proof.
  unfold String.ltb. rewrite String.eqb_neq.
  rewrite (String.compare_antisym y x). intros Hne.
  destruct (String.compare x y) eqn:Hc; simpl; try done.
  by apply String.compare_eq_iff in Hc.
Qed.

(** An item below the head of an increasing list is not in the list. *)
Lemma increasing_below_head x y l :
  String.ltb x y = true -> increasing (y :: l) -> x ∉ y :: l.
Proof.
  revert y. induction l as [|z l IH]; intros y Hxy Hinc Hx.
  - apply list_elem_of_singleton in Hx as ->.
    by rewrite string_ltb_irrefl in Hxy.
  - destruct Hinc as [Hyz Hinc].
    apply elem_of_cons in Hx as [->|Hx].
    { by rewrite string_ltb_irrefl in Hxy. }
    by apply (IH z (string_ltb_trans x y z Hxy Hyz) Hinc).
Qed.

Lemma insert_sorted_elem x l y :
  y ∈ insert_sorted x l <-> y = x ∨ y ∈ l.
Proof.
  induction l as [|z l IH]; simpl.
  - rewrite list_elem_of_singleton, elem_of_nil. tauto.
  - destruct (String.eqb_spec x z) as [->|Hne].
    + rewrite elem_of_cons. tauto.
    + destruct (String.ltb x z).
      * rewrite !elem_of_cons. tauto.
      * rewrite !elem_of_cons, IH. tauto.
Qed.

Lemma insert_sorted_increasing x l :
  increasing l -> increasing (insert_sorted x l).
Proof.
  induction l as [|z l IH]; [done|].
  intros Hl. cbn [insert_sorted].
  destruct (String.eqb x z) eqn:Hxz; [done|].
  destruct (String.ltb x z) eqn:Hlt; [done|].
  pose proof (string_ltb_total x z Hxz Hlt) as Hzx.
  destruct l as [|w l]; [done|].
  destruct Hl as [Hzw Hl]. specialize (IH Hl).
  cbn [insert_sorted] in *.
  destruct (String.eqb x w); [done|].
  destruct (String.ltb x w); done.
Qed.

(** The categories that [main] lists are the values it collected, each one
    once, in strictly increasing order of code points. *)
Theorem sorted_set_sorted_without_repeats (l : list string) :
  increasing (sorted_set l)
  ∧ NoDup (sorted_set l)
  ∧ ∀ x, x ∈ sorted_set l <-> x ∈ l.
Proof.
  assert (increasing (sorted_set l)) as Hinc.
  { induction l as [|x l IH]; [done|]. by apply insert_sorted_increasing. }
  assert (∀ x, x ∈ sorted_set l <-> x ∈ l) as Helem.
  { clear Hinc. induction l as [|y l IH]; intros x; [done|].
    change (sorted_set (y :: l)) with (insert_sorted y (sorted_set l)).
    rewrite insert_sorted_elem, elem_of_cons, IH. tauto. }
  split; [exact Hinc|]. split; [|exact Helem].
  clear Helem. revert Hinc. generalize (sorted_set l). clear l.
  intros l. induction l as [|x l IH]; [constructor|].
  intros Hinc. constructor.
  - destruct l as [|y l]; [apply not_elem_of_nil|].
    destruct Hinc as [Hxy Hinc]. by apply increasing_below_head.
  - apply IH. destruct l as [|y l]; [done|]. by destruct Hinc.
Qed.
